(** * Workspace Optimizer Bot: the agent pipeline and its report

    A shallow embedding of [workspace-optimizer-bot.py].  The program is a
    Streamlit page: the sidebar stores two API keys in the session state, a
    form collects a photo and two preferences, and the submit button either
    shows a validation message or runs [generate_workspace_report], which
    calls four agents one after the other and concatenates their answers.

    Python strings are modelled as [string] (the UTF-8 bytes of the text),
    the session state as a [gmap] from attribute names to values, the
    preferences dict as an object in a heap of records, and the effects of
    the program (temporary files, agent calls, page output, exceptions) by a
    state-and-exception monad over an explicit [State]. *)

From stdpp Require Import gmap strings list fin_maps.

Local Open Scope string_scope.

(** ** Strings *)

(** The escape [\n] of the Python literals. *)
Definition nl : string := String (Ascii.ascii_of_nat 10) EmptyString.

(** [needle in haystack] for Python strings. *)
Fixpoint contains (needle haystack : string) : bool :=
  String.prefix needle haystack ||
  match haystack with
  | EmptyString => false
  | String _ rest => contains needle rest
  end.

(** ** Values *)

(** The object Streamlit's [file_uploader] returns; [getvalue] gives its
    bytes.  Such an object is always truthy. *)
Record UploadedFile := mkUploadedFile {
  file_name : string;
  getvalue : list Byte.byte
}.

(** Values stored as attributes of [st.session_state]. *)
Inductive SVal :=
| SNone
| SStr (s : string)
| SFile (f : UploadedFile).

(** The dict built by [render_workspace_setup_preferences]: always the same
    three keys, the first one [None] until a file is uploaded. *)
Record UserPreferences := mkPrefs {
  uploaded_image : option UploadedFile;
  focus_area : string;
  improvement_goal : string
}.

(** The two select boxes of the form. *)
Inductive FocusArea :=
| PostureCorrection | DeskOrganization | FullErgonomicAssessment.

Inductive ImprovementGoal :=
| ReduceStrain | BoostProductivity | CreateCalmerSpace | MaximizeSpaceEfficiency.

Definition focus_label (f : FocusArea) : string :=
  match f with
  | PostureCorrection => "Posture Correction"
  | DeskOrganization => "Desk Organization"
  | FullErgonomicAssessment => "Full Ergonomic Assessment"
  end.

Definition goal_label (g : ImprovementGoal) : string :=
  match g with
  | ReduceStrain => "Reduce Strain"
  | BoostProductivity => "Boost Productivity"
  | CreateCalmerSpace => "Create a Calmer Space"
  | MaximizeSpaceEfficiency => "Maximize Space Efficiency"
  end.

(** ** Agents *)

Record OpenAIChat := mkOpenAIChat {
  model_id : string;
  model_api_key : SVal
}.

Inductive Tool :=
| SerpApiTools (api_key : SVal).

Record Agent := mkAgent {
  model : OpenAIChat;
  name : string;
  role : string;
  description : string;
  instructions : list string;
  tools : list Tool;
  add_datetime_to_instructions : bool;
  markdown : bool
}.

Record Image := mkImage { filepath : string }.

(** Agent 1: Posture & Setup Analyzer. *)
Definition posture_analyzer_agent (openai_api_key : SVal) : Agent :=
  {| model := mkOpenAIChat "gpt-4o" openai_api_key;
     name := "Posture & Setup Analyzer";
     role := "Analyzes your workspace image to detect posture risks and ergonomic flaws.";
     description := "Examines monitor height, chair position, hand placement, and general setup.";
     instructions :=
       [ "Study the uploaded desk setup photo.";
         "Identify ergonomic risks: slouched seating, low monitor, awkward arm positioning, cluttered workspace, etc.";
         "Provide findings using this format:" +:+ nl +:+ nl +:+
         "### 🔍 Detected Ergonomic Issues" +:+ nl +:+ nl +:+
         "| Area | Concern |" +:+ nl +:+ "|------|---------|" +:+ nl +:+ "| ... | ... |" ];
     tools := [];
     add_datetime_to_instructions := false;
     markdown := true |}.

(** Agent 2: Ergonomic Risk Evaluator. *)
Definition risk_evaluator_agent (openai_api_key : SVal) : Agent :=
  {| model := mkOpenAIChat "gpt-4o" openai_api_key;
     name := "Ergonomic Risk Evaluator";
     role := "Assesses severity of ergonomic risks and prioritizes fixes.";
     description := "Determines the physical toll and urgency of setup problems.";
     instructions :=
       [ "Review the identified ergonomic issues.";
         "Explain how each might affect physical health or productivity over time.";
         "Use markdown with the heading:" +:+ nl +:+ nl +:+
         "### ⚠️ Risk Assessment & Priorities" ];
     tools := [];
     add_datetime_to_instructions := false;
     markdown := true |}.

(** Agent 3: Fix Advisor. *)
Definition fix_advisor_agent (openai_api_key : SVal) : Agent :=
  {| model := mkOpenAIChat "gpt-4o" openai_api_key;
     name := "Fix Advisor";
     role := "Recommends specific changes based on posture and workspace issues.";
     description := "Gives step-by-step advice to improve posture and ergonomics.";
     instructions :=
       [ "Using the analysis and user's selected focus/improvement goal, suggest step-by-step ergonomic fixes.";
         "Include actionable, low-cost and high-impact tips.";
         "Use the format:" +:+ nl +:+ nl +:+
         "### 🛠️ Recommended Fixes" +:+ nl +:+ nl +:+
         "- Adjust chair height to..." +:+ nl +:+ "- Reposition monitor to..." +:+ nl +:+
         "- Add wrist support to..." ];
     tools := [];
     add_datetime_to_instructions := false;
     markdown := true |}.

(** Agent 4: Product Finder.  Its description is the dedented block. *)
Definition product_finder_agent (openai_api_key serp_api_key : SVal) : Agent :=
  {| model := mkOpenAIChat "gpt-4o" openai_api_key;
     name := "Workspace Product Finder";
     role := "Finds relevant ergonomic products to enhance your workspace setup.";
     description :=
       nl +:+ "You recommend ergonomic accessories based on the user's desk setup issues and preferences."
       +:+ nl +:+ "Include practical accessories such as monitor risers, footrests, wrist pads, lumbar cushions, etc."
       +:+ nl;
     instructions :=
       [ "Based on the posture issues and ergonomic improvement goals, recommend 8–10 product links.";
         "Use `search_google` for real product URLs.";
         "Only include actual product links, no blogs or reviews.";
         "Format:" +:+ nl +:+ nl +:+
         "### 🛍️ Product Recommendations" +:+ nl +:+ nl +:+
         "> *Suggested tools to optimize your setup:*" +:+ nl +:+ nl +:+
         "- [Footrest Cushion](https://example.com)" +:+ nl +:+ "- [Monitor Riser](https://example.com)" ];
     tools := [SerpApiTools serp_api_key];
     add_datetime_to_instructions := true;
     markdown := true |}.

(** The four stages of the pipeline, told apart by the agent's name. *)
Inductive Stage := Detect | Evaluate | Recommend | FindProducts.

#[global] Instance Stage_eq_dec : EqDecision Stage.
Proof. solve_decision. Defined.

Definition stage_of (a : Agent) : option Stage :=
  if String.eqb (name a) "Posture & Setup Analyzer" then Some Detect
  else if String.eqb (name a) "Ergonomic Risk Evaluator" then Some Evaluate
  else if String.eqb (name a) "Fix Advisor" then Some Recommend
  else if String.eqb (name a) "Workspace Product Finder" then Some FindProducts
  else None.

(** ** The outside world and the program state *)

(** What the program cannot decide: the name the operating system gives a
    temporary file (or its failure to create one), what a hosted model
    answers (or the failure of the call), and whether [st.image] can decode
    the value it is given (it raises when it cannot). *)
Record World := mkWorld {
  mkstemp : gmap string (list Byte.byte) -> string -> option string;
  agent_run : Agent -> string -> list Image -> option string;
  st_image : SVal -> bool
}.

(** What an execution does that can be seen from outside, in order. *)
Inductive Event :=
| EvAgentRun (a : Agent) (prompt : string) (images : list Image)
| EvSidebarSuccess (msg : string)
| EvError (msg : string)
| EvImage (v : SVal)
| EvMarkdown (v : SVal)
| EvDownloadButton (label : string) (data : SVal) (file : string) (mime : string).

Record State := mkState {
  session_state : gmap string SVal;
  heap : gmap nat UserPreferences;
  files : gmap string (list Byte.byte);
  events : list Event
}.

Inductive Exn :=
| AttributeError (attr : string)
| DanglingReference (p : nat)
| OSError
| AgentCallFailed (a : Agent)
| ImageDecodeError
| InvalidDownloadData.

Inductive Res (A : Type) :=
| Ok (a : A)
| Raise (e : Exn).
Arguments Ok {A} a.
Arguments Raise {A} e.

(** A computation: runs from a state, and returns or raises in a state. *)
Definition M (A : Type) : Type := State -> Res A * State.

Definition ret {A} (a : A) : M A := fun st => (Ok a, st).

Definition bind {A B} (m : M A) (k : A -> M B) : M B :=
  fun st =>
    match m st with
    | (Ok a, st') => k a st'
    | (Raise e, st') => (Raise e, st')
    end.

Definition raise {A} (e : Exn) : M A := fun st => (Raise e, st).

Notation "'let*' x ':=' m 'in' k" := (bind m (fun x => k))
  (at level 10, x name, m at level 100, k at level 200).
Notation "m '>>' k" := (bind m (fun _ => k))
  (at level 90, right associativity).

(** *** Primitive operations *)

Definition log (e : Event) : M unit :=
  fun st => (Ok tt, mkState (session_state st) (heap st) (files st) (events st ++ [e])).

(** [st.session_state.attr], which raises when the attribute is not set. *)
Definition session_get (attr : string) : M SVal :=
  fun st =>
    match session_state st !! attr with
    | Some v => (Ok v, st)
    | None => (Raise (AttributeError attr), st)
    end.

(** [st.session_state.attr = v]. *)
Definition session_set (attr : string) (v : SVal) : M unit :=
  fun st => (Ok tt, mkState (<[attr := v]> (session_state st)) (heap st) (files st) (events st)).

(** [hasattr(st.session_state, attr)] and [attr in st.session_state]. *)
Definition hasattr (attr : string) : M bool :=
  fun st => (Ok (bool_decide (is_Some (session_state st !! attr))), st).

(** A new dict object; the caller gets a reference to it. *)
Definition alloc (d : UserPreferences) : M nat :=
  fun st =>
    let p := fresh (dom (heap st)) in
    (Ok p, mkState (session_state st) (<[p := d]> (heap st)) (files st) (events st)).

(** Reading a dict object through a reference. *)
Definition deref (p : nat) : M UserPreferences :=
  fun st =>
    match heap st !! p with
    | Some d => (Ok d, st)
    | None => (Raise (DanglingReference p), st)
    end.

Definition option_to_sval (o : option UploadedFile) : SVal :=
  match o with
  | Some f => SFile f
  | None => SNone
  end.

Section Program.

Variable W : World.

(** [tempfile.NamedTemporaryFile(delete=False, suffix=...)]: an empty file
    under a name of the system's choice. *)
Definition named_temporary_file (suffix : string) : M string :=
  fun st =>
    match mkstemp W (files st) suffix with
    | Some path =>
        (Ok path, mkState (session_state st) (heap st) (<[path := []]> (files st)) (events st))
    | None => (Raise OSError, st)
    end.

(** [tmp.write(data)] on the file just created. *)
Definition tmp_write (path : string) (data : list Byte.byte) : M unit :=
  fun st => (Ok tt, mkState (session_state st) (heap st) (<[path := data]> (files st)) (events st)).

(** [uploaded_image.getvalue()]: [None] has no such attribute. *)
Definition call_getvalue (o : option UploadedFile) : M (list Byte.byte) :=
  match o with
  | Some f => ret (getvalue f)
  | None => raise (AttributeError "getvalue")
  end.

(** [agent.run(prompt, images=...).content]: the call is recorded, then the
    hosted model answers or the call fails. *)
Definition run (a : Agent) (prompt : string) (images : list Image) : M string :=
  log (EvAgentRun a prompt images) >>
  match agent_run W a prompt images with
  | Some content => ret content
  | None => raise (AgentCallFailed a)
  end.

(** *** [generate_workspace_report] *)

Definition summary_comment : string :=
  "### 💬 Ergonomic Summary" +:+ nl +:+ nl +:+
  "> “Your workspace has great potential. With just a few adjustments, you can improve posture, reduce fatigue, and make your setup truly ergonomic.”" +:+ nl.

(** The f-string that builds [fix_prompt]. *)
Definition make_fix_prompt (issue_section focus_area improvement_goal : string) : string :=
  issue_section +:+ nl +:+ nl +:+ "Focus: " +:+ focus_area +:+ nl +:+ "Goal: " +:+ improvement_goal.

(** The f-string that builds [final_report]. *)
Definition make_final_report
    (issue_section risk_section fix_section product_section : string) : string :=
  "## 🪑 Workspace Optimization Report" +:+ nl +:+ nl +:+
  issue_section +:+ nl +:+ nl +:+ "---" +:+ nl +:+ nl +:+
  risk_section +:+ nl +:+ nl +:+ "---" +:+ nl +:+ nl +:+
  fix_section +:+ nl +:+ nl +:+ "---" +:+ nl +:+ nl +:+
  product_section +:+ nl +:+ nl +:+ "---" +:+ nl +:+ nl +:+
  summary_comment.

Definition generate_workspace_report (user_workspace_preferences : nat) : M string :=
  (* Save uploaded image to a temporary file *)
  let* prefs := deref user_workspace_preferences in
  let uploaded_image := uploaded_image prefs in
  let* image_path := named_temporary_file ".jpg" in
  let* data := call_getvalue uploaded_image in
  tmp_write image_path data >>
  let* prefs := deref user_workspace_preferences in
  let focus_area := focus_area prefs in
  let improvement_goal := improvement_goal prefs in
  (* Agent 1: Posture & Setup Analyzer *)
  let* key := session_get "openai_api_key" in
  let* issue_section :=
    run (posture_analyzer_agent key)
        "Analyze the desk image and report ergonomic issues."
        [mkImage image_path] in
  (* Agent 2: Ergonomic Risk Evaluator *)
  let* key := session_get "openai_api_key" in
  let* risk_section := run (risk_evaluator_agent key) issue_section [] in
  (* Agent 3: Fix Advisor *)
  let* key := session_get "openai_api_key" in
  let fix_prompt := make_fix_prompt issue_section focus_area improvement_goal in
  let* fix_section := run (fix_advisor_agent key) fix_prompt [] in
  (* Agent 4: Product Finder *)
  let* key := session_get "openai_api_key" in
  let* serp_key := session_get "serp_api_key" in
  let* product_section := run (product_finder_agent key serp_key) fix_prompt [] in
  (* Combine sections into a full report *)
  ret (make_final_report issue_section risk_section fix_section product_section).

(** *** [main] *)

(** What the user does on the page during one run of the script. *)
Record UserInput := mkUserInput {
  openai_key_input : string;
  serp_key_input : string;
  file_upload : option UploadedFile;
  focus_choice : FocusArea;
  goal_choice : ImprovementGoal;
  button_clicked : bool
}.

(** Truth value of a Python string. *)
Definition nonempty (s : string) : bool :=
  match s with
  | EmptyString => false
  | String _ _ => true
  end.

Definition render_sidebar (ui : UserInput) : M unit :=
  (if nonempty (openai_key_input ui) then
     session_set "openai_api_key" (SStr (openai_key_input ui)) >>
     log (EvSidebarSuccess "✅ OpenAI API key updated!")
   else ret tt) >>
  (if nonempty (serp_key_input ui) then
     session_set "serp_api_key" (SStr (serp_key_input ui)) >>
     log (EvSidebarSuccess "✅ Serp API key updated!")
   else ret tt).

Definition render_workspace_setup_preferences (ui : UserInput) : M nat :=
  alloc {| uploaded_image := file_upload ui;
           focus_area := focus_label (focus_choice ui);
           improvement_goal := goal_label (goal_choice ui) |}.

Definition msg_no_openai_key : string := "Please provide your OpenAI API key in the sidebar.".
Definition msg_no_serp_key : string := "Please provide your SerpAPI key in the sidebar.".
Definition msg_no_image : string := "Please upload a workspace photo to proceed.".

(** The body of [if st.button(...)]: what the submit action does. *)
Definition on_submit (user_workspace_preferences : nat) : M unit :=
  let* has_openai := hasattr "openai_api_key" in
  if negb has_openai then log (EvError msg_no_openai_key)
  else
    let* has_serp := hasattr "serp_api_key" in
    if negb has_serp then log (EvError msg_no_serp_key)
    else
      let* prefs := deref user_workspace_preferences in
      if negb (bool_decide (is_Some (uploaded_image prefs))) then log (EvError msg_no_image)
      else
        let* workspace_report := generate_workspace_report user_workspace_preferences in
        (* Save results to session state *)
        session_set "workspace_report" (SStr workspace_report) >>
        let* prefs := deref user_workspace_preferences in
        session_set "uploaded_image" (option_to_sval (uploaded_image prefs)).

(** [st.image(v, ...)]: shows the image, or raises when the value cannot
    be decoded as one. *)
Definition show_image (v : SVal) : M unit :=
  if st_image W v then log (EvImage v) else raise ImageDecodeError.

(** The data [st.download_button] accepts: text, bytes or a file object. *)
Definition download_data_ok (v : SVal) : bool :=
  match v with
  | SNone => false
  | SStr _ | SFile _ => true
  end.

Definition download_button (label : string) (data : SVal) (file mime : string) : M unit :=
  if download_data_ok data then log (EvDownloadButton label data file mime)
  else raise InvalidDownloadData.

(** Display result if available. *)
Definition display_result : M unit :=
  let* has_report := hasattr "workspace_report" in
  let* has_image := hasattr "uploaded_image" in
  if has_report && has_image then
    let* img := session_get "uploaded_image" in
    show_image img >>
    let* report := session_get "workspace_report" in
    log (EvMarkdown report) >>
    let* report := session_get "workspace_report" in
    download_button "📥 Download Workspace Report" report
      "workspace_optimization_report.md" "text/markdown"
  else ret tt.

(** One run of the script.  The static decoration of the page (title,
    rules, style sheet) is left out. *)
Definition main (ui : UserInput) : M unit :=
  render_sidebar ui >>
  let* user_workspace_preferences := render_workspace_setup_preferences ui in
  (if button_clicked ui then on_submit user_workspace_preferences else ret tt) >>
  display_result.

End Program.

(** ** Observing an execution *)

(** The events a computation adds when run from [st]. *)
Definition trace {A} (m : M A) (st : State) : list Event :=
  drop (length (events st)) (events (m st).2).

Definition result {A} (m : M A) (st : State) : Res A := (m st).1.

(** The agent invocations among some events: agent, prompt and images. *)
Definition agent_calls (evs : list Event) : list (Agent * string * list Image) :=
  omap (fun e => match e with
                 | EvAgentRun a prompt images => Some (a, prompt, images)
                 | _ => None
                 end) evs.

(** The stages those invocations belong to. *)
Definition stages_run (evs : list Event) : list (option Stage) :=
  (fun c => stage_of c.1.1) <$> agent_calls evs.

(** The invocations of the agent of one stage. *)
Definition calls_of (s : Stage) (evs : list Event) : list (Agent * string * list Image) :=
  filter (fun c => stage_of c.1.1 = Some s) (agent_calls evs).

(** The prompts given to the agent of one stage. *)
Definition prompts_of (s : Stage) (evs : list Event) : list string :=
  (fun c => c.1.2) <$> calls_of s evs.

(** What the hosted models answered to the invocations of one stage. *)
Definition outputs_of (W : World) (s : Stage) (evs : list Event) : list string :=
  omap (fun c => agent_run W c.1.1 c.1.2 c.2) (calls_of s evs).

(** The validation messages shown. *)
Definition errors_shown (evs : list Event) : list string :=
  omap (fun e => match e with EvError msg => Some msg | _ => None end) evs.

(** ** A stub world for examples *)

Module Stub.

Definition answers (a b c d : string) (ag : Agent) : option string :=
  match stage_of ag with
  | Some Detect => Some a
  | Some Evaluate => Some b
  | Some Recommend => Some c
  | Some FindProducts => Some d
  | None => None
  end.

(** The eight bytes every PNG file starts with. *)
Definition png_signature : list Byte.byte :=
  [Byte.x89; Byte.x50; Byte.x4e; Byte.x47; Byte.x0d; Byte.x0a; Byte.x1a; Byte.x0a].

Fixpoint starts_with (signature bytes : list Byte.byte) : bool :=
  match signature, bytes with
  | [], _ => true
  | _ :: _, [] => false
  | s :: signature', b :: bytes' => Byte.eqb s b && starts_with signature' bytes'
  end.

(** The stub decoder takes an uploaded file for an image when it starts
    with the PNG signature. *)
Definition decodes (v : SVal) : bool :=
  match v with
  | SFile f => starts_with png_signature (getvalue f)
  | _ => false
  end.

Definition world (a b c d : string) : World :=
  {| mkstemp := fun _ suffix => Some ("/tmp/tmpdesk" +:+ suffix);
     agent_run := fun ag _ _ => answers a b c d ag;
     st_image := decodes |}.

(** A PNG image of one white pixel. *)
Definition photo : UploadedFile :=
  mkUploadedFile "desk.png"
  [
    Byte.x89; Byte.x50; Byte.x4e; Byte.x47; Byte.x0d; Byte.x0a; Byte.x1a; Byte.x0a;
    Byte.x00; Byte.x00; Byte.x00; Byte.x0d; Byte.x49; Byte.x48; Byte.x44; Byte.x52;
    Byte.x00; Byte.x00; Byte.x00; Byte.x01; Byte.x00; Byte.x00; Byte.x00; Byte.x01;
    Byte.x08; Byte.x02; Byte.x00; Byte.x00; Byte.x00; Byte.x90; Byte.x77; Byte.x53;
    Byte.xde; Byte.x00; Byte.x00; Byte.x00; Byte.x0c; Byte.x49; Byte.x44; Byte.x41;
    Byte.x54; Byte.x78; Byte.x9c; Byte.x63; Byte.xf8; Byte.xff; Byte.xff; Byte.x3f;
    Byte.x00; Byte.x05; Byte.xfe; Byte.x02; Byte.xfe; Byte.x0d; Byte.xef; Byte.x46;
    Byte.xb8; Byte.x00; Byte.x00; Byte.x00; Byte.x00; Byte.x49; Byte.x45; Byte.x4e;
    Byte.x44; Byte.xae; Byte.x42; Byte.x60; Byte.x82 ].

(** A file that is no image, under a name the uploader accepts. *)
Definition broken_photo : UploadedFile := mkUploadedFile "desk.jpg" [Byte.xff; Byte.xd8].

Definition prefs : UserPreferences :=
  mkPrefs (Some photo) "Posture Correction" "Reduce Strain".

(** Both keys entered, the preferences dict at reference 0. *)
Definition ready : State :=
  {| session_state := <["serp_api_key" := SStr "serp"]> {["openai_api_key" := SStr "sk"]};
     heap := {[ 0 := prefs ]};
     files := ∅;
     events := [] |}.

End Stub.

(** ** Statements about executions *)

(** The same state with the dict at reference [p] replaced by [d]. *)
Definition with_prefs (p : nat) (d : UserPreferences) (st : State) : State :=
  {| session_state := session_state st;
     heap := <[p := d]> (heap st);
     files := files st;
     events := events st |}.

(** The reading of C1 as it is written: in an execution, the prompt the
    product finder is run on contains the text the fix advisor answered. *)
Definition product_prompt_contains_fix_section (W : World) (p : nat) (st : State) : Prop :=
  forall fix_section pr,
    fix_section ∈ outputs_of W Recommend (trace (generate_workspace_report W p) st) ->
    pr ∈ prompts_of FindProducts (trace (generate_workspace_report W p) st) ->
    contains fix_section pr = true.

(** Two worlds that differ at most in what the risk evaluator answers. *)
Definition same_but_risk_evaluator (W1 W2 : World) : Prop :=
  (forall fs suffix, mkstemp W1 fs suffix = mkstemp W2 fs suffix)
  /\ (forall a prompt images,
        stage_of a <> Some Evaluate ->
        agent_run W1 a prompt images = agent_run W2 a prompt images).

(** *** The layout of the report, in the words of the specification *)

Definition report_header : string := "## 🪑 Workspace Optimization Report" +:+ nl +:+ nl.

Definition section_separator : string := nl +:+ nl +:+ "---" +:+ nl +:+ nl.

(** The header, then every section followed by the separator, then the
    closing remark. *)
Definition spec_report (sections : list string) (closing : string) : string :=
  report_header
  +:+ String.concat "" ((fun s => s +:+ section_separator) <$> sections)
  +:+ closing.

(** The example of the specification, its elided parts written out. *)
Definition example_report : string :=
  "## 🪑 Workspace Optimization Report" +:+ nl +:+ nl +:+
  "A" +:+ nl +:+ nl +:+ "---" +:+ nl +:+ nl +:+
  "B" +:+ nl +:+ nl +:+ "---" +:+ nl +:+ nl +:+
  "C" +:+ nl +:+ nl +:+ "---" +:+ nl +:+ nl +:+
  "D" +:+ nl +:+ nl +:+ "---" +:+ nl +:+ nl +:+
  "### 💬 Ergonomic Summary" +:+ nl +:+ nl +:+
  "> “Your workspace has great potential. With just a few adjustments, you can improve posture, reduce fatigue, and make your setup truly ergonomic.”" +:+ nl.

(** The strings [parts] occur in [s] one after the other, without overlap. *)
Fixpoint in_order (parts : list string) (s : string) : Prop :=
  match parts with
  | [] => True
  | x :: rest => exists before after, s = before +:+ x +:+ after /\ in_order rest after
  end.

(** *** States and inputs for examples *)

(** Nothing entered, nothing uploaded. *)
Definition empty_page : State :=
  {| session_state := ∅;
     heap := {[ 0 := mkPrefs None "Posture Correction" "Reduce Strain" ]};
     files := ∅;
     events := [] |}.

Definition fresh_session : State :=
  {| session_state := ∅; heap := ∅; files := ∅; events := [] |}.

Definition filled_form : UserInput :=
  {| openai_key_input := "sk"; serp_key_input := "serp";
     file_upload := Some Stub.photo;
     focus_choice := PostureCorrection; goal_choice := ReduceStrain;
     button_clicked := true |}.

(** A world in which temporary files can be created and every agent call
    fails. *)
Definition offline_world : World :=
  {| mkstemp := fun _ suffix => Some ("/tmp/tmpdesk" +:+ suffix);
     agent_run := fun _ _ _ => None;
     st_image := Stub.decodes |}.

(** *** The page around the submit action *)

(** The key a run works with: the one entered now, else the stored one. *)
Definition effective_key (input : string) (stored : option SVal) : option SVal :=
  if nonempty input then Some (SStr input) else stored.

(** The dict [render_workspace_setup_preferences] builds from the form. *)
Definition form_prefs (ui : UserInput) : UserPreferences :=
  {| uploaded_image := file_upload ui;
     focus_area := focus_label (focus_choice ui);
     improvement_goal := goal_label (goal_choice ui) |}.

(** The state in which [main] reaches its button, and the reference of the
    dict it holds there. *)
Definition form_state (ui : UserInput) (st : State) : State :=
  (render_workspace_setup_preferences ui (render_sidebar ui st).2).2.

Definition form_ref (ui : UserInput) (st : State) : nat :=
  fresh (dom (heap (render_sidebar ui st).2)).

(** What the result part of the page shows for a session state: nothing
    without a stored report and photo, and otherwise the photo, the report
    and the download button, up to the first of them that fails. *)
Definition shown_result (W : World) (session : gmap string SVal) : list Event :=
  match session !! "workspace_report", session !! "uploaded_image" with
  | Some report, Some image =>
      if st_image W image then
        EvImage image :: EvMarkdown report ::
        (if download_data_ok report then
           [EvDownloadButton "📥 Download Workspace Report" report
              "workspace_optimization_report.md" "text/markdown"]
         else [])
      else []
  | _, _ => []
  end.

(** The exception the result part of the page ends with, if any. *)
Definition display_error (W : World) (session : gmap string SVal) : option Exn :=
  match session !! "workspace_report", session !! "uploaded_image" with
  | Some report, Some image =>
      if st_image W image then
        if download_data_ok report then None else Some InvalidDownloadData
      else Some ImageDecodeError
  | _, _ => None
  end.

Definition outcome (e : option Exn) : Res unit :=
  match e with
  | None => Ok tt
  | Some e => Raise e
  end.

(** ** Proof tools *)

(** Runs [generate_workspace_report] symbolically: one goal per way the
    function can end, with the events it added made explicit. *)
Ltac exec_unfold :=
  cbv beta delta [trace result generate_workspace_report run bind ret raise log
    deref named_temporary_file call_getvalue tmp_write session_get]; simpl.

Ltac exec_cases :=
  exec_unfold;
  repeat (case_match; simplify_eq; simpl);
  repeat rewrite <- app_assoc; rewrite ?drop_app_length, ?drop_all; simpl.

(** Evaluates the observations of an explicit list of events. *)
Ltac observe :=
  unfold stages_run, outputs_of, prompts_of, calls_of, agent_calls in *; simpl in *;
  repeat match goal with
         | H : agent_run _ _ _ _ = _ |- _ => rewrite H in *; simpl in *
         end.

Lemma prefix_append (s t : string) : String.prefix s (s +:+ t) = true.
Proof.
  induction s as [|c s IH]; simpl.
  - by destruct t.
  - destruct (Ascii.ascii_dec c c); [exact IH | done].
Qed.

Lemma contains_append (s t : string) : contains s (s +:+ t) = true.
Proof. destruct s, t; simpl; rewrite ?prefix_append; try done;
  destruct (Ascii.ascii_dec _ _); rewrite ?prefix_append; done. Qed.

(** ** The pipeline *)

(** What the function leaves untouched: it only creates a temporary file
    and calls agents. *)
Lemma generate_frame W p st :
  session_state (generate_workspace_report W p st).2 = session_state st
  /\ heap (generate_workspace_report W p st).2 = heap st.
Proof. exec_cases; done. Qed.

(** The run in which nothing fails. *)
Lemma generate_success W p st prefs f path key serp_key s1 s2 s3 s4 :
  heap st !! p = Some prefs ->
  uploaded_image prefs = Some f ->
  mkstemp W (files st) ".jpg" = Some path ->
  session_state st !! "openai_api_key" = Some key ->
  session_state st !! "serp_api_key" = Some serp_key ->
  let fix_prompt := make_fix_prompt s1 (focus_area prefs) (improvement_goal prefs) in
  agent_run W (posture_analyzer_agent key)
    "Analyze the desk image and report ergonomic issues." [mkImage path] = Some s1 ->
  agent_run W (risk_evaluator_agent key) s1 [] = Some s2 ->
  agent_run W (fix_advisor_agent key) fix_prompt [] = Some s3 ->
  agent_run W (product_finder_agent key serp_key) fix_prompt [] = Some s4 ->
  generate_workspace_report W p st =
    (Ok (make_final_report s1 s2 s3 s4),
     {| session_state := session_state st;
        heap := heap st;
        files := <[path := getvalue f]> (<[path := []]> (files st));
        events := events st ++
          [ EvAgentRun (posture_analyzer_agent key)
              "Analyze the desk image and report ergonomic issues." [mkImage path];
            EvAgentRun (risk_evaluator_agent key) s1 [];
            EvAgentRun (fix_advisor_agent key) fix_prompt [];
            EvAgentRun (product_finder_agent key serp_key) fix_prompt [] ] |}).
Proof.
  intros Hp Hf Ht Hk Hs fp H1 H2 H3 H4. subst fp.
  exec_cases; simplify_eq. by repeat rewrite <- app_assoc.
Qed.

(** C6. In every execution of [generate_workspace_report] the agent
    invocations follow the order Detect, Evaluate, Recommend, FindProducts:
    what has run is always an initial part of that sequence (no stage is
    skipped or repeated, no other agent runs), and an execution that returns
    its report has run the four stages, each exactly once. *)
Theorem pipeline_stage_order W p st :
  stages_run (trace (generate_workspace_report W p) st)
    `prefix_of` [Some Detect; Some Evaluate; Some Recommend; Some FindProducts]
  /\ (forall report,
        result (generate_workspace_report W p) st = Ok report ->
        stages_run (trace (generate_workspace_report W p) st)
          = [Some Detect; Some Evaluate; Some Recommend; Some FindProducts]).
Proof.
  split.
  - exec_cases; observe; by eexists.
  - intros report. exec_cases; observe; done.
Qed.

Lemma pipeline_stage_order_witness :
  stages_run (trace (generate_workspace_report (Stub.world "A" "B" "C" "D") 0) Stub.ready)
    = [Some Detect; Some Evaluate; Some Recommend; Some FindProducts].
Proof.
  apply (proj2 (pipeline_stage_order (Stub.world "A" "B" "C" "D") 0 Stub.ready)
           (make_final_report "A" "B" "C" "D")).
  vm_compute. reflexivity.
Defined.

(** C7. [generate_workspace_report] never writes to the preferences dict it
    is given: after the call the dict holds what it held before (and so does
    every other dict), whether the call returns or raises. *)
Theorem preferences_not_written W p st :
  heap (generate_workspace_report W p st).2 !! p = heap st !! p
  /\ heap (generate_workspace_report W p st).2 = heap st.
Proof.
  destruct (generate_frame W p st) as [_ Hheap]. by rewrite Hheap.
Qed.

(** C10. Whenever the product finder (agent 4) is invoked, its prompt is the
    very string the fix advisor (agent 3) was invoked on, namely the
    issue-detection output, an empty line, "Focus: " with the focus area
    and, on the next line, "Goal: " with the improvement goal; an execution
    that returns has invoked both agents, once each, on that string. *)
Theorem product_finder_gets_fix_prompt W p st prefs :
  heap st !! p = Some prefs ->
  (forall pr,
     pr ∈ prompts_of FindProducts (trace (generate_workspace_report W p) st) ->
     prompts_of FindProducts (trace (generate_workspace_report W p) st) = [pr]
     /\ prompts_of Recommend (trace (generate_workspace_report W p) st) = [pr]
     /\ exists issue_section,
          outputs_of W Detect (trace (generate_workspace_report W p) st) = [issue_section]
          /\ pr = issue_section +:+ nl +:+ nl +:+ "Focus: " +:+ focus_area prefs
                    +:+ nl +:+ "Goal: " +:+ improvement_goal prefs)
  /\ (forall report,
        result (generate_workspace_report W p) st = Ok report ->
        exists issue_section,
          outputs_of W Detect (trace (generate_workspace_report W p) st) = [issue_section]
          /\ prompts_of FindProducts (trace (generate_workspace_report W p) st)
             = [issue_section +:+ nl +:+ nl +:+ "Focus: " +:+ focus_area prefs
                  +:+ nl +:+ "Goal: " +:+ improvement_goal prefs]
          /\ prompts_of Recommend (trace (generate_workspace_report W p) st)
             = [issue_section +:+ nl +:+ nl +:+ "Focus: " +:+ focus_area prefs
                  +:+ nl +:+ "Goal: " +:+ improvement_goal prefs]).
Proof.
  intros Hp. split.
  - intros pr. exec_cases; observe; intros Hin;
      try (by apply elem_of_nil in Hin);
      apply list_elem_of_singleton in Hin; subst pr;
      (split; [done|]); (split; [done|]); eexists; split; reflexivity.
  - intros report. exec_cases; observe; intros; simplify_eq.
    eexists; repeat split; reflexivity.
Qed.

Lemma product_finder_gets_fix_prompt_witness :
  prompts_of FindProducts
    (trace (generate_workspace_report (Stub.world "A" "B" "C" "D") 0) Stub.ready)
  = ["A" +:+ nl +:+ nl +:+ "Focus: Posture Correction" +:+ nl +:+ "Goal: Reduce Strain"]
  /\ prompts_of Recommend
    (trace (generate_workspace_report (Stub.world "A" "B" "C" "D") 0) Stub.ready)
  = ["A" +:+ nl +:+ nl +:+ "Focus: Posture Correction" +:+ nl +:+ "Goal: Reduce Strain"].
Proof.
  destruct (product_finder_gets_fix_prompt (Stub.world "A" "B" "C" "D") 0 Stub.ready
              Stub.prefs) as [H _]; [reflexivity|].
  destruct (H ("A" +:+ nl +:+ nl +:+ "Focus: Posture Correction" +:+ nl
               +:+ "Goal: Reduce Strain")) as (H4 & H3 & _).
  - vm_compute. left.
  - split; assumption.
Defined.

(** C1 as written fails: when the four agents answer "issues", "risks",
    "fixes" and "products", the product finder is run on the issue text and
    the two preferences; the fix advisor's answer "fixes" occurs nowhere in
    that prompt. *)
Lemma product_prompt_lacks_fix_section :
  ~ product_prompt_contains_fix_section
      (Stub.world "issues" "risks" "fixes" "products") 0 Stub.ready.
Proof.
  intros H.
  specialize (H "fixes" (make_fix_prompt "issues" "Posture Correction" "Reduce Strain")).
  assert (Hc : contains "fixes"
                 (make_fix_prompt "issues" "Posture Correction" "Reduce Strain") = false)
    by (vm_compute; reflexivity).
  rewrite H in Hc; [discriminate | |]; vm_compute; left.
Qed.

(** C1, amended.  The issue-detection output feeds every later stage, and
    the fix advisor's answer feeds none.  In every execution: whenever the
    risk evaluator is invoked, its prompt is the issue-detection output and
    nothing else; whenever the fix advisor is invoked, its prompt starts
    with the issue-detection output, followed by the two preferences; and
    whenever the product finder is invoked, it is run on that same
    fix-advisor prompt, which contains the [issue_section] text. *)
Theorem product_prompt_contains_issue_section W p st prefs :
  heap st !! p = Some prefs ->
  (forall pr,
     pr ∈ prompts_of Evaluate (trace (generate_workspace_report W p) st) ->
     outputs_of W Detect (trace (generate_workspace_report W p) st) = [pr]
     /\ prompts_of Evaluate (trace (generate_workspace_report W p) st) = [pr])
  /\ (forall pr,
        pr ∈ prompts_of Recommend (trace (generate_workspace_report W p) st) ->
        exists issue_section,
          outputs_of W Detect (trace (generate_workspace_report W p) st) = [issue_section]
          /\ prompts_of Evaluate (trace (generate_workspace_report W p) st)
             = [issue_section]
          /\ prompts_of Recommend (trace (generate_workspace_report W p) st) = [pr]
          /\ pr = issue_section +:+ nl +:+ nl +:+ "Focus: " +:+ focus_area prefs
                    +:+ nl +:+ "Goal: " +:+ improvement_goal prefs
          /\ String.prefix issue_section pr = true)
  /\ (forall pr,
        pr ∈ prompts_of FindProducts (trace (generate_workspace_report W p) st) ->
        exists issue_section,
          outputs_of W Detect (trace (generate_workspace_report W p) st) = [issue_section]
          /\ prompts_of Evaluate (trace (generate_workspace_report W p) st)
             = [issue_section]
          /\ prompts_of Recommend (trace (generate_workspace_report W p) st) = [pr]
          /\ prompts_of FindProducts (trace (generate_workspace_report W p) st) = [pr]
          /\ pr = issue_section +:+ nl +:+ nl +:+ "Focus: " +:+ focus_area prefs
                    +:+ nl +:+ "Goal: " +:+ improvement_goal prefs
          /\ contains issue_section pr = true).
Proof.
  intros Hp. split; [|split].
  - intros pr. exec_cases; observe; intros Hin;
      try (by apply elem_of_nil in Hin);
      apply list_elem_of_singleton in Hin; subst pr; done.
  - intros pr. exec_cases; observe; intros Hin;
      try (by apply elem_of_nil in Hin);
      apply list_elem_of_singleton in Hin; subst pr;
      eexists; repeat split; apply prefix_append.
  - intros pr. exec_cases; observe; intros Hin;
      try (by apply elem_of_nil in Hin);
      apply list_elem_of_singleton in Hin; subst pr;
      eexists; repeat split; apply contains_append.
Qed.

Lemma product_prompt_contains_issue_section_witness :
  prompts_of Evaluate
    (trace (generate_workspace_report (Stub.world "A" "B" "C" "D") 0) Stub.ready) = ["A"]
  /\ exists issue_section,
       outputs_of (Stub.world "A" "B" "C" "D") Detect
         (trace (generate_workspace_report (Stub.world "A" "B" "C" "D") 0) Stub.ready)
         = [issue_section]
       /\ contains issue_section
            ("A" +:+ nl +:+ nl +:+ "Focus: Posture Correction" +:+ nl
             +:+ "Goal: Reduce Strain") = true.
Proof.
  destruct (product_prompt_contains_issue_section (Stub.world "A" "B" "C" "D") 0
              Stub.ready Stub.prefs eq_refl) as (H2 & _ & H4).
  split.
  - apply (H2 "A"). vm_compute. left.
  - destruct (H4 ("A" +:+ nl +:+ nl +:+ "Focus: Posture Correction" +:+ nl
                  +:+ "Goal: Reduce Strain"))
      as (issue & H1 & _ & _ & _ & _ & H5); [vm_compute; left|].
    exists issue. split; assumption.
Defined.

(** C4. Whenever the fix advisor (agent 3) is invoked, its prompt is the
    issue-detection output followed by the focus area and the improvement
    goal between fixed labels, and nothing else; what the risk evaluator
    answered has no influence on it: in two executions that differ only in
    the risk evaluator's answers the fix advisor gets the same prompt. *)
Theorem fix_prompt_inputs W p st prefs pr :
  heap st !! p = Some prefs ->
  pr ∈ prompts_of Recommend (trace (generate_workspace_report W p) st) ->
  (exists issue_section,
     outputs_of W Detect (trace (generate_workspace_report W p) st) = [issue_section]
     /\ prompts_of Recommend (trace (generate_workspace_report W p) st) = [pr]
     /\ pr = issue_section +:+ nl +:+ nl +:+ "Focus: " +:+ focus_area prefs
               +:+ nl +:+ "Goal: " +:+ improvement_goal prefs)
  /\ (forall W' pr',
        same_but_risk_evaluator W W' ->
        pr' ∈ prompts_of Recommend (trace (generate_workspace_report W' p) st) ->
        pr' = pr).
Proof.
  intros Hp Hin. split.
  - revert Hin. exec_cases; observe; intros Hin;
      try (by apply elem_of_nil in Hin);
      apply list_elem_of_singleton in Hin; subst pr; eauto.
  - intros W' pr' [Hmk Hag] Hin'. revert Hin Hin'.
    exec_unfold. rewrite Hp. rewrite <- Hmk.
    repeat first
      [ match goal with
        | |- context [agent_run W' ?a ?q ?im] => rewrite <- (Hag a q im) by done
        end
      | case_match; simplify_eq; simpl ].
    all: repeat rewrite <- app_assoc; rewrite ?drop_app_length, ?drop_all; simpl.
    all: observe; intros Hin Hin';
      try (by apply elem_of_nil in Hin); try (by apply elem_of_nil in Hin');
      apply list_elem_of_singleton in Hin; apply list_elem_of_singleton in Hin';
      congruence.
Qed.

Lemma stub_worlds_same_but_risk_evaluator a b b' c d :
  same_but_risk_evaluator (Stub.world a b c d) (Stub.world a b' c d).
Proof.
  split; [reflexivity|]. intros ag prompt images Hne. simpl.
  unfold Stub.answers. destruct (stage_of ag) as [[]|]; congruence.
Defined.

Lemma fix_prompt_inputs_witness :
  prompts_of Recommend
    (trace (generate_workspace_report (Stub.world "A" "B" "C" "D") 0) Stub.ready)
    = [make_fix_prompt "A" "Posture Correction" "Reduce Strain"]
  /\ (forall pr',
        pr' ∈ prompts_of Recommend
          (trace (generate_workspace_report (Stub.world "A" "other" "C" "D") 0) Stub.ready) ->
        pr' = make_fix_prompt "A" "Posture Correction" "Reduce Strain").
Proof.
  destruct (fix_prompt_inputs (Stub.world "A" "B" "C" "D") 0 Stub.ready Stub.prefs
              (make_fix_prompt "A" "Posture Correction" "Reduce Strain"))
    as [(issue & _ & H & _) Hother].
  - reflexivity.
  - vm_compute. left.
  - split; [exact H|]. intros pr' Hin.
    apply (Hother (Stub.world "A" "other" "C" "D")); [|exact Hin].
    apply stub_worlds_same_but_risk_evaluator.
Defined.

(** C9. The invocations of the posture analyzer (agent 1) and of the risk
    evaluator (agent 2) do not depend on the focus area and the improvement
    goal: two executions that differ only in these two fields of the
    preferences dict invoke agents 1 and 2 with the same agent, the same
    prompt and the same images. *)
Theorem early_stages_ignore_preferences W p st image focus1 goal1 focus2 goal2 :
  calls_of Detect
    (trace (generate_workspace_report W p) (with_prefs p (mkPrefs image focus1 goal1) st))
  = calls_of Detect
    (trace (generate_workspace_report W p) (with_prefs p (mkPrefs image focus2 goal2) st))
  /\ calls_of Evaluate
    (trace (generate_workspace_report W p) (with_prefs p (mkPrefs image focus1 goal1) st))
  = calls_of Evaluate
    (trace (generate_workspace_report W p) (with_prefs p (mkPrefs image focus2 goal2) st)).
Proof.
  unfold with_prefs. exec_unfold.
  repeat first
    [ rewrite lookup_insert_eq; simpl
    | case_match; simplify_eq; simpl ].
  all: repeat rewrite <- app_assoc; rewrite ?drop_app_length, ?drop_all; simpl.
  all: observe; unfold filter; simpl; done.
Qed.

(** The preferences do reach the later stages: the example is not vacuous. *)
Example early_stages_ignore_preferences_example :
  calls_of Detect
    (trace (generate_workspace_report (Stub.world "A" "B" "C" "D") 0)
       (with_prefs 0 (mkPrefs (Some Stub.photo) "Desk Organization" "Boost Productivity")
          Stub.ready))
  = [(posture_analyzer_agent (SStr "sk"),
      "Analyze the desk image and report ergonomic issues.",
      [mkImage "/tmp/tmpdesk.jpg"])]
  /\ prompts_of Recommend
    (trace (generate_workspace_report (Stub.world "A" "B" "C" "D") 0)
       (with_prefs 0 (mkPrefs (Some Stub.photo) "Desk Organization" "Boost Productivity")
          Stub.ready))
  = ["A" +:+ nl +:+ nl +:+ "Focus: Desk Organization" +:+ nl +:+ "Goal: Boost Productivity"].
Proof. split; vm_compute; reflexivity. Qed.

Lemma string_app_assoc (s t u : string) : (s +:+ t) +:+ u = s +:+ t +:+ u.
Proof.
  induction s as [|c s IH]; [reflexivity|].
  change (String c ((s +:+ t) +:+ u) = String c (s +:+ t +:+ u)). by f_equal.
Qed.

Lemma make_final_report_layout s1 s2 s3 s4 :
  make_final_report s1 s2 s3 s4 = spec_report [s1; s2; s3; s4] summary_comment.
Proof.
  unfold make_final_report, spec_report, report_header, section_separator.
  cbv [String.concat fmap list_fmap].
  rewrite !string_app_assoc. reflexivity.
Qed.

Lemma make_final_report_in_order s1 s2 s3 s4 :
  in_order [s1; s2; s3; s4; summary_comment] (make_final_report s1 s2 s3 s4).
Proof.
  unfold make_final_report. cbn [in_order].
  exists report_header, (section_separator +:+ s2 +:+ section_separator +:+ s3
    +:+ section_separator +:+ s4 +:+ section_separator +:+ summary_comment).
  split; [reflexivity|].
  exists section_separator, (section_separator +:+ s3
    +:+ section_separator +:+ s4 +:+ section_separator +:+ summary_comment).
  split; [reflexivity|].
  exists section_separator, (section_separator +:+ s4 +:+ section_separator +:+ summary_comment).
  split; [reflexivity|].
  exists section_separator, (section_separator +:+ summary_comment).
  split; [reflexivity|].
  exists section_separator, "". split; [reflexivity | done].
Qed.

(** An execution that returns has got one answer from each stage and returns
    the report assembled from these four answers. *)
Lemma generate_returns W p st report :
  result (generate_workspace_report W p) st = Ok report ->
  exists s1 s2 s3 s4,
    outputs_of W Detect (trace (generate_workspace_report W p) st) = [s1]
    /\ outputs_of W Evaluate (trace (generate_workspace_report W p) st) = [s2]
    /\ outputs_of W Recommend (trace (generate_workspace_report W p) st) = [s3]
    /\ outputs_of W FindProducts (trace (generate_workspace_report W p) st) = [s4]
    /\ report = make_final_report s1 s2 s3 s4.
Proof.
  exec_cases; observe; intros; simplify_eq. eauto 10.
Qed.

(** C2. For all stage outputs [s1], [s2], [s3], [s4] the assembled report is
    the header, then the four outputs each followed by the separator, then
    the closing remark, which begins with the "Ergonomic Summary" heading;
    the four outputs and the closing remark occur in the report in this
    order; with the outputs "A", "B", "C", "D" the report is the example of
    the specification; and every execution of [generate_workspace_report]
    that returns gives back the report so assembled from the answers of its
    four stages. *)
Theorem report_layout :
  (forall s1 s2 s3 s4,
     make_final_report s1 s2 s3 s4 = spec_report [s1; s2; s3; s4] summary_comment
     /\ in_order [s1; s2; s3; s4; summary_comment] (make_final_report s1 s2 s3 s4))
  /\ String.prefix "### 💬 Ergonomic Summary" summary_comment = true
  /\ make_final_report "A" "B" "C" "D" = example_report
  /\ (forall W p st report,
        result (generate_workspace_report W p) st = Ok report ->
        exists s1 s2 s3 s4,
          outputs_of W Detect (trace (generate_workspace_report W p) st) = [s1]
          /\ outputs_of W Evaluate (trace (generate_workspace_report W p) st) = [s2]
          /\ outputs_of W Recommend (trace (generate_workspace_report W p) st) = [s3]
          /\ outputs_of W FindProducts (trace (generate_workspace_report W p) st) = [s4]
          /\ report = spec_report [s1; s2; s3; s4] summary_comment).
Proof.
  repeat split.
  - apply make_final_report_layout.
  - apply make_final_report_in_order.
  - intros W p st report Hret.
    destruct (generate_returns W p st report Hret) as (s1 & s2 & s3 & s4 & H1 & H2 & H3 & H4 & ->).
    exists s1, s2, s3, s4. rewrite make_final_report_layout. done.
Qed.

Lemma report_layout_witness :
  exists s1 s2 s3 s4,
    outputs_of (Stub.world "A" "B" "C" "D") Detect
      (trace (generate_workspace_report (Stub.world "A" "B" "C" "D") 0) Stub.ready) = [s1]
    /\ example_report = spec_report [s1; s2; s3; s4] summary_comment.
Proof.
  destruct report_layout as (_ & _ & _ & H).
  destruct (H (Stub.world "A" "B" "C" "D") 0 Stub.ready example_report)
    as (s1 & s2 & s3 & s4 & H1 & _ & _ & _ & H5).
  - vm_compute. reflexivity.
  - exists s1, s2, s3, s4. split; assumption.
Defined.

(** C5. Report assembly is deterministic: two executions that return, and in
    which the four stages gave the same answers, return the same report,
    whatever else differs between them (world, preferences, session). *)
Theorem report_deterministic W1 p1 st1 W2 p2 st2 report1 report2 :
  result (generate_workspace_report W1 p1) st1 = Ok report1 ->
  result (generate_workspace_report W2 p2) st2 = Ok report2 ->
  (forall s, outputs_of W1 s (trace (generate_workspace_report W1 p1) st1)
             = outputs_of W2 s (trace (generate_workspace_report W2 p2) st2)) ->
  report1 = report2.
Proof.
  intros Hr1 Hr2 Hsame.
  destruct (generate_returns _ _ _ _ Hr1) as (a1 & b1 & c1 & d1 & Ha1 & Hb1 & Hc1 & Hd1 & ->).
  destruct (generate_returns _ _ _ _ Hr2) as (a2 & b2 & c2 & d2 & Ha2 & Hb2 & Hc2 & Hd2 & ->).
  pose proof (Hsame Detect) as E1. pose proof (Hsame Evaluate) as E2.
  pose proof (Hsame Recommend) as E3. pose proof (Hsame FindProducts) as E4.
  congruence.
Qed.

Lemma report_deterministic_witness :
  make_final_report "A" "B" "C" "D" = example_report.
Proof.
  apply (report_deterministic
           (Stub.world "A" "B" "C" "D") 0 Stub.ready
           (Stub.world "A" "B" "C" "D") 0
           (with_prefs 0 (mkPrefs (Some Stub.photo) "Desk Organization" "Boost Productivity")
              Stub.ready)).
  - vm_compute. reflexivity.
  - vm_compute. reflexivity.
  - intros []; vm_compute; reflexivity.
Defined.

(** ** The submit action *)

Ltac submit_unfold :=
  cbv beta delta [on_submit hasattr bind ret log deref]; simpl.

(** Runs the checks of the submit action with the lookups known from the
    hypotheses. *)
Ltac submit_run :=
  submit_unfold;
  repeat (match goal with
          | H : _ !! _ = _ |- _ => rewrite H
          | H : uploaded_image _ = _ |- _ => rewrite H
          end; simpl).


Lemma events_of_trace {A} (m : M A) (st : State) (l : list Event) :
  events (m st).2 = (events st ++ l)%list -> trace m st = l.
Proof. unfold trace. intros ->. apply drop_app_length. Qed.

(** With both keys and a photo, the submit action is the pipeline followed
    by two assignments to the session state. *)
Lemma on_submit_runs_pipeline W p st prefs key serp_key f :
  heap st !! p = Some prefs ->
  session_state st !! "openai_api_key" = Some key ->
  session_state st !! "serp_api_key" = Some serp_key ->
  uploaded_image prefs = Some f ->
  on_submit W p st =
    (let* workspace_report := generate_workspace_report W p in
     session_set "workspace_report" (SStr workspace_report) >>
     session_set "uploaded_image" (SFile f)) st.
Proof.
  intros Hp Hk Hs Hf.
  unfold on_submit, bind at 1, hasattr. rewrite Hk. simpl.
  unfold bind at 1. rewrite Hs. simpl.
  unfold bind at 1, deref at 1. rewrite Hp, Hf. simpl.
  unfold bind.
  destruct (generate_workspace_report W p st) as [[report|e] st'] eqn:Hgen; [|done].
  pose proof (generate_frame W p st) as [_ Hheap]. rewrite Hgen in Hheap. simpl in Hheap.
  unfold session_set, deref. simpl. rewrite Hheap, Hp, Hf. done.
Qed.

Lemma on_submit_trace W p st prefs key serp_key f :
  heap st !! p = Some prefs ->
  session_state st !! "openai_api_key" = Some key ->
  session_state st !! "serp_api_key" = Some serp_key ->
  uploaded_image prefs = Some f ->
  trace (on_submit W p) st = trace (generate_workspace_report W p) st.
Proof.
  intros Hp Hk Hs Hf. unfold trace.
  rewrite (on_submit_runs_pipeline W p st prefs key serp_key f) by done.
  unfold bind, session_set.
  by destruct (generate_workspace_report W p st) as [[report|e] st'].
Qed.





(** ** One run of the page *)

Example main_shows_report :
  trace (main (Stub.world "A" "B" "C" "D") filled_form) fresh_session =
  [ EvSidebarSuccess "✅ OpenAI API key updated!";
    EvSidebarSuccess "✅ Serp API key updated!";
    EvAgentRun (posture_analyzer_agent (SStr "sk"))
      "Analyze the desk image and report ergonomic issues." [mkImage "/tmp/tmpdesk.jpg"];
    EvAgentRun (risk_evaluator_agent (SStr "sk")) "A" [];
    EvAgentRun (fix_advisor_agent (SStr "sk"))
      (make_fix_prompt "A" "Posture Correction" "Reduce Strain") [];
    EvAgentRun (product_finder_agent (SStr "sk") (SStr "serp"))
      (make_fix_prompt "A" "Posture Correction" "Reduce Strain") [];
    EvImage (SFile Stub.photo);
    EvMarkdown (SStr example_report);
    EvDownloadButton "📥 Download Workspace Report" (SStr example_report)
      "workspace_optimization_report.md" "text/markdown" ].
Proof. vm_compute. reflexivity. Qed.

Example main_without_keys :
  trace (main (Stub.world "A" "B" "C" "D")
           (mkUserInput "" "" (Some Stub.photo) PostureCorrection ReduceStrain true))
        fresh_session
  = [EvError msg_no_openai_key].
Proof. vm_compute. reflexivity. Qed.

(** The submit action of [main] is [on_submit] on the dict just built, in
    the session the sidebar leaves: a key is there when it was stored by an
    earlier run or is entered now. *)
Lemma render_sidebar_keys ui st :
  let st' := (render_sidebar ui st).2 in
  result (render_sidebar ui) st = Ok tt
  /\ (is_Some (session_state st' !! "openai_api_key") <->
      is_Some (session_state st !! "openai_api_key") \/ openai_key_input ui <> "")
  /\ (is_Some (session_state st' !! "serp_api_key") <->
      is_Some (session_state st !! "serp_api_key") \/ serp_key_input ui <> "")
  /\ agent_calls (trace (render_sidebar ui) st) = []
  /\ heap st' = heap st.
Proof.
  unfold render_sidebar, result, trace, bind, ret, session_set, log.
  destruct (openai_key_input ui) as [|c1 k1], (serp_key_input ui) as [|c2 k2]; simpl;
    repeat rewrite <- app_assoc; rewrite ?drop_app_length, ?drop_all;
    repeat split; simpl; try done;
    repeat (rewrite lookup_insert_eq || rewrite lookup_insert_ne by done);
    intuition (eauto; try done).
Qed.

(** ** Error and edge behaviour of the pipeline *)

Ltac elem_cases :=
  repeat match goal with
         | H : _ ∈ [] |- _ => by apply elem_of_nil in H
         | H : _ ∈ _ :: _ |- _ => apply elem_of_cons in H as [H|H]; simplify_eq
         end.

(** X1. Called on preferences without an uploaded image,
    [generate_workspace_report] raises the attribute error of
    [None.getvalue()] before any agent is invoked, and the temporary file it
    has already created stays behind, empty. *)
Theorem generate_without_image W p st prefs path :
  heap st !! p = Some prefs ->
  uploaded_image prefs = None ->
  mkstemp W (files st) ".jpg" = Some path ->
  result (generate_workspace_report W p) st = Raise (AttributeError "getvalue")
  /\ trace (generate_workspace_report W p) st = []
  /\ files (generate_workspace_report W p st).2 = <[path := []]> (files st).
Proof.
  intros Hp Hf Ht. exec_cases; simplify_eq. done.
Qed.

Lemma generate_without_image_witness :
  result (generate_workspace_report (Stub.world "A" "B" "C" "D") 0) empty_page
    = Raise (AttributeError "getvalue")
  /\ files (generate_workspace_report (Stub.world "A" "B" "C" "D") 0 empty_page).2
     !! "/tmp/tmpdesk.jpg" = Some [].
Proof.
  destruct (generate_without_image (Stub.world "A" "B" "C" "D") 0 empty_page
              (mkPrefs None "Posture Correction" "Reduce Strain") "/tmp/tmpdesk.jpg")
    as (H1 & _ & H3); [reflexivity | reflexivity | reflexivity |].
  split; [exact H1|]. rewrite H3. reflexivity.
Defined.

(** X2. When the posture analyzer is invoked, it is given the fixed
    instruction and exactly one image: the temporary file, whose content at
    the end of the call is the bytes of the uploaded photo.  The call
    touches no other file, and the temporary file is never removed. *)
Theorem posture_analyzer_sees_uploaded_photo W p st prefs :
  heap st !! p = Some prefs ->
  (forall a prompt images,
     (a, prompt, images) ∈ agent_calls (trace (generate_workspace_report W p) st) ->
     stage_of a = Some Detect ->
     prompt = "Analyze the desk image and report ergonomic issues."
     /\ exists path f,
          images = [mkImage path]
          /\ mkstemp W (files st) ".jpg" = Some path
          /\ uploaded_image prefs = Some f
          /\ files (generate_workspace_report W p st).2 !! path = Some (getvalue f))
  /\ (forall q,
        mkstemp W (files st) ".jpg" <> Some q ->
        files (generate_workspace_report W p st).2 !! q = files st !! q).
Proof.
  intros Hp. split.
  - intros a prompt images. exec_cases; observe; intros Hin Hst; elem_cases;
      try discriminate; (split; [done|]); eexists _, _;
      repeat split; by rewrite ?lookup_insert_eq.
  - intros q. exec_cases; intros Hq; try done;
      rewrite ?lookup_insert_ne by congruence; done.
Qed.

Lemma posture_analyzer_sees_uploaded_photo_witness :
  files (generate_workspace_report (Stub.world "A" "B" "C" "D") 0 Stub.ready).2
    !! "/tmp/tmpdesk.jpg" = Some (getvalue Stub.photo).
Proof.
  destruct (posture_analyzer_sees_uploaded_photo (Stub.world "A" "B" "C" "D") 0 Stub.ready
              Stub.prefs eq_refl) as [H _].
  destruct (H (posture_analyzer_agent (SStr "sk"))
              "Analyze the desk image and report ergonomic issues."
              [mkImage "/tmp/tmpdesk.jpg"])
    as (_ & path & f & Hi & _ & Hf & Hfile).
  - vm_compute. left.
  - reflexivity.
  - injection Hi as <-. injection Hf as <-. exact Hfile.
Defined.

(** X3. Without a stored model-provider key no agent is ever invoked and
    the call never returns a report; when the image could be saved, the
    call raises the attribute error of the missing session attribute, after
    the photo has been written to the temporary file. *)
Theorem generate_without_openai_key W p st :
  session_state st !! "openai_api_key" = None ->
  agent_calls (trace (generate_workspace_report W p) st) = []
  /\ (forall report, result (generate_workspace_report W p) st <> Ok report)
  /\ (forall prefs f path,
        heap st !! p = Some prefs ->
        uploaded_image prefs = Some f ->
        mkstemp W (files st) ".jpg" = Some path ->
        result (generate_workspace_report W p) st = Raise (AttributeError "openai_api_key")
        /\ files (generate_workspace_report W p st).2 !! path = Some (getvalue f)).
Proof.
  intros Hk. split; [|split].
  - exec_cases; done.
  - intros report. exec_cases; done.
  - intros prefs f path Hp Hf Ht. exec_cases; simplify_eq.
    by rewrite lookup_insert_eq.
Qed.

Lemma generate_without_openai_key_witness :
  agent_calls (trace (generate_workspace_report (Stub.world "A" "B" "C" "D") 0)
                 (with_prefs 0 Stub.prefs empty_page)) = []
  /\ result (generate_workspace_report (Stub.world "A" "B" "C" "D") 0)
       (with_prefs 0 Stub.prefs empty_page) = Raise (AttributeError "openai_api_key").
Proof.
  destruct (generate_without_openai_key (Stub.world "A" "B" "C" "D") 0
              (with_prefs 0 Stub.prefs empty_page) eq_refl) as (H1 & _ & H3).
  split; [exact H1|].
  apply (H3 Stub.prefs Stub.photo "/tmp/tmpdesk.jpg"); reflexivity.
Defined.

(** X4. The search-provider key is read only when the product finder is
    built.  Without it the product finder is never invoked and no report is
    returned; and whenever the call raises the attribute error of the
    missing search key, the first three agents have already been invoked, in
    order, and have all answered. *)
Theorem generate_without_serp_key W p st :
  (session_state st !! "serp_api_key" = None ->
   prompts_of FindProducts (trace (generate_workspace_report W p) st) = []
   /\ forall report, result (generate_workspace_report W p) st <> Ok report)
  /\ (result (generate_workspace_report W p) st = Raise (AttributeError "serp_api_key") ->
      session_state st !! "serp_api_key" = None
      /\ stages_run (trace (generate_workspace_report W p) st)
         = [Some Detect; Some Evaluate; Some Recommend]
      /\ exists s1 s2 s3,
           outputs_of W Detect (trace (generate_workspace_report W p) st) = [s1]
           /\ outputs_of W Evaluate (trace (generate_workspace_report W p) st) = [s2]
           /\ outputs_of W Recommend (trace (generate_workspace_report W p) st) = [s3]).
Proof.
  split.
  - intros Hs. split; [|intros report]; exec_cases; observe; done.
  - exec_cases; observe; intros; simplify_eq; eauto 10.
Qed.

(** The session of [Stub.ready] without the search-provider key. *)
Lemma generate_without_serp_key_witness :
  stages_run
    (trace (generate_workspace_report (Stub.world "A" "B" "C" "D") 0)
       (mkState {["openai_api_key" := SStr "sk"]} {[ 0 := Stub.prefs ]} ∅ []))
  = [Some Detect; Some Evaluate; Some Recommend]
  /\ prompts_of FindProducts
    (trace (generate_workspace_report (Stub.world "A" "B" "C" "D") 0)
       (mkState {["openai_api_key" := SStr "sk"]} {[ 0 := Stub.prefs ]} ∅ [])) = [].
Proof.
  destruct (generate_without_serp_key (Stub.world "A" "B" "C" "D") 0
              (mkState {["openai_api_key" := SStr "sk"]} {[ 0 := Stub.prefs ]} ∅ []))
    as [H1 H2].
  split.
  - apply H2. vm_compute. reflexivity.
  - apply H1. reflexivity.
Defined.

(** X5. A failed agent call is not retried and ends the pipeline.  The
    call raises for an agent exactly when the invocations made end with one
    invocation of that agent that got no answer, all invocations before it
    having been answered; and an invocation without an answer can only stand
    at the last position of the sequence of invocations. *)
Theorem agent_failure_ends_pipeline W p st :
  (forall a,
     result (generate_workspace_report W p) st = Raise (AgentCallFailed a) <->
     exists earlier prompt images,
       agent_calls (trace (generate_workspace_report W p) st)
         = (earlier ++ [(a, prompt, images)])%list
       /\ agent_run W a prompt images = None
       /\ Forall (fun c => is_Some (agent_run W c.1.1 c.1.2 c.2)) earlier)
  /\ (forall i a prompt images,
        agent_calls (trace (generate_workspace_report W p) st) !! i
          = Some (a, prompt, images) ->
        agent_run W a prompt images = None ->
        S i = length (agent_calls (trace (generate_workspace_report W p) st))).
Proof.
  split.
  - intros a. split.
    + exec_cases; observe; intros; simplify_eq;
        lazymatch goal with
        | |- exists _ _ _, [(_, ?q, ?im)] = _ /\ _ => exists [], q, im
        | |- exists _ _ _, [?c1; (_, ?q, ?im)] = _ /\ _ => exists [c1], q, im
        | |- exists _ _ _, [?c1; ?c2; (_, ?q, ?im)] = _ /\ _ => exists [c1; c2], q, im
        | |- exists _ _ _, [?c1; ?c2; ?c3; (_, ?q, ?im)] = _ /\ _ =>
            exists [c1; c2; c3], q, im
        end;
        (split; [done|]); (split; [done|]);
        repeat (apply Forall_cons; split; [simpl; eauto|]); done.
    + intros (earlier & prompt & images & Hcalls & Hnone & Hearlier).
      revert Hcalls Hnone Hearlier.
      exec_cases; observe; intros Hcalls Hnone Hearlier;
        repeat (destruct earlier as [|? earlier]; simplify_eq; try done);
        repeat match goal with
               | H : Forall _ (_ :: _) |- _ => apply Forall_cons in H as [[? ?] H]
               end; simpl in *; congruence.
  - intros i a prompt images. exec_cases; observe; intros Hi Hnone;
      repeat (destruct i as [|i]; simplify_eq; try done); simpl in *; congruence.
Qed.

Lemma agent_failure_ends_pipeline_witness :
  result (generate_workspace_report offline_world 0) Stub.ready
    = Raise (AgentCallFailed (posture_analyzer_agent (SStr "sk"))).
Proof.
  apply (proj1 (agent_failure_ends_pipeline offline_world 0 Stub.ready)).
  exists [], "Analyze the desk image and report ergonomic issues.",
    [mkImage "/tmp/tmpdesk.jpg"].
  split; [vm_compute; reflexivity|]. split; [vm_compute; reflexivity|]. constructor.
Defined.

(** X6. Every agent invoked is built on the model "gpt-4o" with the
    model-provider key stored in the session, and answers in markdown.  The
    posture analyzer is given exactly one image and every other agent none;
    the product finder carries exactly one tool, the search tool with the
    stored search-provider key, and every other agent carries no tool. *)
Theorem agents_configuration W p st a prompt images :
  (a, prompt, images) ∈ agent_calls (trace (generate_workspace_report W p) st) ->
  (exists key,
     session_state st !! "openai_api_key" = Some key
     /\ model a = mkOpenAIChat "gpt-4o" key)
  /\ markdown a = true
  /\ (exists stage, stage_of a = Some stage)
  /\ (stage_of a = Some Detect -> exists path, images = [mkImage path])
  /\ (stage_of a <> Some Detect -> images = [])
  /\ (stage_of a = Some FindProducts ->
      exists serp_key,
        session_state st !! "serp_api_key" = Some serp_key
        /\ tools a = [SerpApiTools serp_key])
  /\ (stage_of a <> Some FindProducts -> tools a = []).
Proof.
  exec_cases; observe; intros Hin; elem_cases;
    (split; [eauto|]); (split; [done|]); (split; [by eexists|]);
    repeat split; intros Hst; try done; eauto.
Qed.

Lemma agents_configuration_witness :
  exists serp_key,
    session_state Stub.ready !! "serp_api_key" = Some serp_key
    /\ tools (product_finder_agent (SStr "sk") (SStr "serp")) = [SerpApiTools serp_key].
Proof.
  destruct (agents_configuration (Stub.world "A" "B" "C" "D") 0 Stub.ready
              (product_finder_agent (SStr "sk") (SStr "serp"))
              ("A" +:+ nl +:+ nl +:+ "Focus: Posture Correction" +:+ nl
               +:+ "Goal: Reduce Strain") [])
    as (_ & _ & _ & _ & _ & H & _).
  - vm_compute. do 3 right. left.
  - apply H. reflexivity.
Defined.

(** ** The submit action and the page: storing and showing the report *)

(** What a successful pipeline leaves in the state. *)
Lemma generate_events W p st :
  events (generate_workspace_report W p st).2
  = (events st ++ trace (generate_workspace_report W p) st)%list.
Proof. exec_cases; repeat rewrite <- app_assoc; by rewrite ?app_nil_r. Qed.

(** With the guards of the submit action passed, the pipeline can only fail
    for a reason outside the program. *)
Lemma generate_guarded W p st prefs f key serp_key e :
  heap st !! p = Some prefs ->
  uploaded_image prefs = Some f ->
  session_state st !! "openai_api_key" = Some key ->
  session_state st !! "serp_api_key" = Some serp_key ->
  result (generate_workspace_report W p) st = Raise e ->
  e = OSError \/ exists a, e = AgentCallFailed a.
Proof.
  intros Hp Hf Hk Hs. exec_cases; intros; simplify_eq; eauto.
Qed.

(** X7. When both keys and the photo are there, the submit action stores
    the report the pipeline returns, and the photo, in the session state and
    changes no other attribute; when the pipeline raises, the exception
    propagates and the session state is left as it was. *)
Theorem on_submit_stores_report W p st prefs key serp_key f :
  heap st !! p = Some prefs ->
  session_state st !! "openai_api_key" = Some key ->
  session_state st !! "serp_api_key" = Some serp_key ->
  uploaded_image prefs = Some f ->
  (forall report,
     result (generate_workspace_report W p) st = Ok report ->
     result (on_submit W p) st = Ok tt
     /\ session_state (on_submit W p st).2
        = <["uploaded_image" := SFile f]>
            (<["workspace_report" := SStr report]> (session_state st)))
  /\ (forall e,
        result (generate_workspace_report W p) st = Raise e ->
        result (on_submit W p) st = Raise e
        /\ session_state (on_submit W p st).2 = session_state st).
Proof.
  intros Hp Hk Hs Hf.
  pose proof (generate_frame W p st) as [Hsess _].
  unfold result in *.
  rewrite (on_submit_runs_pipeline W p st prefs key serp_key f) by done.
  unfold bind, session_set.
  destruct (generate_workspace_report W p st) as [[r|e'] st'] eqn:Hgen; simpl in *;
    split; intros ? Heq; simplify_eq; rewrite Hsess; done.
Qed.

Lemma on_submit_stores_report_witness :
  session_state (on_submit (Stub.world "A" "B" "C" "D") 0 Stub.ready).2
    !! "workspace_report" = Some (SStr example_report).
Proof.
  destruct (on_submit_stores_report (Stub.world "A" "B" "C" "D") 0 Stub.ready Stub.prefs
              (SStr "sk") (SStr "serp") Stub.photo eq_refl eq_refl eq_refl eq_refl)
    as [H _].
  destruct (H example_report) as [_ Hsess]; [vm_compute; reflexivity|].
  rewrite Hsess. reflexivity.
Defined.

(** X8. The three checks of the submit action are enough to keep the
    pipeline from failing on a missing key or a missing image: the submit
    action raises only when a temporary file cannot be created or an agent
    call fails. *)
Theorem on_submit_failures W p st prefs e :
  heap st !! p = Some prefs ->
  result (on_submit W p) st = Raise e ->
  e = OSError \/ exists a, e = AgentCallFailed a.
Proof.
  intros Hp.
  destruct (session_state st !! "openai_api_key") as [key|] eqn:Hk;
    [|unfold result; by submit_run].
  destruct (session_state st !! "serp_api_key") as [serp_key|] eqn:Hs;
    [|unfold result; by submit_run].
  destruct (uploaded_image prefs) as [f|] eqn:Hf;
    [|unfold result; by submit_run].
  pose proof (generate_guarded W p st prefs f key serp_key) as Hguard.
  unfold result in *.
  rewrite (on_submit_runs_pipeline W p st prefs key serp_key f) by done.
  unfold bind, session_set.
  destruct (generate_workspace_report W p st) as [[r|e'] st'] eqn:Hgen; simpl in *;
    intros Heq; simplify_eq. by apply Hguard.
Qed.

Lemma on_submit_failures_witness :
  AgentCallFailed (posture_analyzer_agent (SStr "sk")) = OSError
  \/ exists a, AgentCallFailed (posture_analyzer_agent (SStr "sk")) = AgentCallFailed a.
Proof.
  apply (on_submit_failures offline_world 0 Stub.ready Stub.prefs).
  - reflexivity.
  - vm_compute. reflexivity.
Defined.

(** The result part of the page: it reads the two attributes only after
    it has found them, so it raises only when the photo cannot be shown or
    the report cannot be offered for download. *)
Lemma display_result_spec W st :
  display_result W st =
    (outcome (display_error W (session_state st)),
     {| session_state := session_state st; heap := heap st; files := files st;
        events := events st ++ shown_result W (session_state st) |}).
Proof.
  unfold display_result, show_image, download_button, shown_result, display_error,
    outcome, hasattr, session_get, bind, ret, raise, log.
  destruct st as [session hp fs evs]; simpl.
  destruct (session !! "workspace_report") as [r|] eqn:Hr;
    destruct (session !! "uploaded_image") as [i|] eqn:Hi; simpl;
    repeat (rewrite ?Hr, ?Hi; simpl);
    rewrite ?app_nil_r; try done.
  destruct (st_image W i); simpl; rewrite ?Hr; simpl; rewrite ?app_nil_r; [|done].
  rewrite Hr. simpl.
  destruct (download_data_ok r); simpl; by repeat rewrite <- app_assoc.
Qed.

(** The sidebar: what it stores and what it shows. *)
Lemma render_sidebar_spec ui st :
  render_sidebar ui st =
    (Ok tt, {| session_state := session_state (render_sidebar ui st).2;
               heap := heap st; files := files st;
               events := events st ++ trace (render_sidebar ui) st |})
  /\ trace (render_sidebar ui) st =
       ((if nonempty (openai_key_input ui)
         then [EvSidebarSuccess "✅ OpenAI API key updated!"] else []) ++
        (if nonempty (serp_key_input ui)
         then [EvSidebarSuccess "✅ Serp API key updated!"] else []))%list
  /\ session_state (render_sidebar ui st).2 !! "openai_api_key"
     = effective_key (openai_key_input ui) (session_state st !! "openai_api_key")
  /\ session_state (render_sidebar ui st).2 !! "serp_api_key"
     = effective_key (serp_key_input ui) (session_state st !! "serp_api_key")
  /\ (forall attr, attr <> "openai_api_key" -> attr <> "serp_api_key" ->
        session_state (render_sidebar ui st).2 !! attr = session_state st !! attr).
Proof.
  unfold trace, render_sidebar, effective_key, bind, ret, session_set, log.
  destruct st as [session hp fs evs].
  destruct (openai_key_input ui) as [|c1 k1], (serp_key_input ui) as [|c2 k2]; simpl;
    repeat rewrite <- app_assoc; rewrite ?drop_app_length, ?drop_all, ?app_nil_r;
    repeat split; try done; intros;
    repeat (rewrite lookup_insert_eq || rewrite lookup_insert_ne by done); done.
Qed.

Lemma sidebar_trace_quiet ui st :
  agent_calls (trace (render_sidebar ui) st) = []
  /\ errors_shown (trace (render_sidebar ui) st) = [].
Proof.
  destruct (render_sidebar_spec ui st) as (_ & -> & _).
  by destruct (nonempty _), (nonempty _).
Qed.

Lemma form_state_facts ui st :
  heap (form_state ui st) !! form_ref ui st = Some (form_prefs ui)
  /\ session_state (form_state ui st) = session_state (render_sidebar ui st).2
  /\ files (form_state ui st) = files st
  /\ events (form_state ui st) = (events st ++ trace (render_sidebar ui) st)%list.
Proof.
  destruct (render_sidebar_spec ui st) as (Hrun & _).
  unfold form_state, form_ref, render_workspace_setup_preferences, alloc.
  rewrite Hrun. simpl. by rewrite lookup_insert_eq.
Qed.

(** [main] is the sidebar, the form, then the button and the result part. *)
Lemma main_steps W ui st :
  main W ui st =
    (if button_clicked ui
     then (on_submit W (form_ref ui st) >> display_result W) (form_state ui st)
     else display_result W (form_state ui st)).
Proof.
  destruct (render_sidebar_spec ui st) as (Hrun & _).
  unfold main, form_state, form_ref, bind at 1. rewrite Hrun. simpl.
  unfold bind at 1, render_workspace_setup_preferences, alloc. simpl.
  by destruct (button_clicked ui).
Qed.

(** The submit action only adds events. *)
Lemma on_submit_events W p st :
  events (on_submit W p st).2 = (events st ++ trace (on_submit W p) st)%list.
Proof.
  unfold trace.
  destruct (session_state st !! "openai_api_key") as [key|] eqn:Hk;
    [|submit_run; by rewrite drop_app_length].
  destruct (session_state st !! "serp_api_key") as [serp_key|] eqn:Hs;
    [|submit_run; by rewrite drop_app_length].
  destruct (heap st !! p) as [prefs|] eqn:Hp;
    [|submit_run; by rewrite drop_all, app_nil_r].
  destruct (uploaded_image prefs) as [f|] eqn:Hf;
    [|submit_run; by rewrite drop_app_length].
  rewrite (on_submit_runs_pipeline W p st prefs key serp_key f) by done.
  pose proof (generate_events W p st) as Hgen.
  unfold bind, session_set.
  destruct (generate_workspace_report W p st) as [[report|e] st'] eqn:Hrun;
    simpl in *; by rewrite Hgen, drop_app_length.
Qed.

(** The events and the result of one run of the page. *)
Lemma main_trace W ui st :
  trace (main W ui) st =
    (trace (render_sidebar ui) st ++
     if button_clicked ui then
       trace (on_submit W (form_ref ui st)) (form_state ui st) ++
       match result (on_submit W (form_ref ui st)) (form_state ui st) with
       | Ok _ => shown_result W (session_state (on_submit W (form_ref ui st)
                                                  (form_state ui st)).2)
       | Raise _ => []
       end
     else shown_result W (session_state (form_state ui st)))%list
  /\ result (main W ui) st =
       (if button_clicked ui then
          match result (on_submit W (form_ref ui st)) (form_state ui st) with
          | Ok _ => outcome (display_error W (session_state (on_submit W (form_ref ui st)
                                                               (form_state ui st)).2))
          | Raise e => Raise e
          end
        else outcome (display_error W (session_state (form_state ui st)))).
Proof.
  destruct (form_state_facts ui st) as (_ & _ & _ & Hev).
  pose proof (on_submit_events W (form_ref ui st) (form_state ui st)) as Hsub.
  unfold trace at 1, result. rewrite main_steps.
  remember (trace (on_submit W (form_ref ui st)) (form_state ui st)) as tr3 eqn:Htr3.
  remember (trace (render_sidebar ui) st) as tr1 eqn:Htr1.
  remember (form_state ui st) as st2 eqn:Hst2.
  clear Htr3 Htr1 Hst2. rewrite Hev in Hsub.
  destruct (button_clicked ui).
  - unfold bind.
    destruct (on_submit W (form_ref ui st) st2) as [[[]|e] st3] eqn:Hrun3;
      simpl in Hsub |- *.
    + rewrite display_result_spec. simpl. rewrite Hsub.
      repeat rewrite <- app_assoc. by rewrite drop_app_length.
    + rewrite Hsub. repeat rewrite <- app_assoc.
      by rewrite drop_app_length, app_nil_r.
  - rewrite display_result_spec. simpl. rewrite Hev.
    by rewrite <- app_assoc, drop_app_length.
Qed.

Lemma agent_calls_app (l1 l2 : list Event) :
  agent_calls (l1 ++ l2) = (agent_calls l1 ++ agent_calls l2)%list.
Proof. apply omap_app. Qed.

Lemma errors_shown_app (l1 l2 : list Event) :
  errors_shown (l1 ++ l2) = (errors_shown l1 ++ errors_shown l2)%list.
Proof. apply omap_app. Qed.

Lemma shown_result_quiet W session :
  agent_calls (shown_result W session) = []
  /\ errors_shown (shown_result W session) = [].
Proof. unfold shown_result. by repeat case_match. Qed.

(** A rejected submission: one message, nothing else. *)
Lemma on_submit_rejects W p st prefs :
  heap st !! p = Some prefs ->
  session_state st !! "openai_api_key" = None
  \/ session_state st !! "serp_api_key" = None
  \/ uploaded_image prefs = None ->
  exists msg,
    on_submit W p st =
      (Ok tt, {| session_state := session_state st; heap := heap st;
                 files := files st; events := events st ++ [EvError msg] |})
    /\ msg ∈ [msg_no_openai_key; msg_no_serp_key; msg_no_image].
Proof.
  intros Hp Hmissing. submit_unfold.
  destruct (session_state st !! "openai_api_key") as [key|] eqn:Hk; simpl;
    [|eexists; split; [reflexivity | by left]].
  destruct (session_state st !! "serp_api_key") as [serp_key|] eqn:Hs; simpl;
    [|eexists; split; [reflexivity | by right; left]].
  rewrite Hp. simpl.
  destruct (uploaded_image prefs) as [f|] eqn:Hf; simpl;
    [|eexists; split; [reflexivity | by do 2 right; left]].
  by destruct Hmissing as [?|[?|?]].
Qed.

(** The invocations of an execution that returns. *)
Lemma generate_returns_calls W p st report :
  result (generate_workspace_report W p) st = Ok report ->
  exists prefs key serp_key path s1 s2 s3 s4,
    heap st !! p = Some prefs
    /\ session_state st !! "openai_api_key" = Some key
    /\ session_state st !! "serp_api_key" = Some serp_key
    /\ agent_run W (posture_analyzer_agent key)
         "Analyze the desk image and report ergonomic issues." [mkImage path] = Some s1
    /\ agent_run W (risk_evaluator_agent key) s1 [] = Some s2
    /\ agent_run W (fix_advisor_agent key)
         (make_fix_prompt s1 (focus_area prefs) (improvement_goal prefs)) [] = Some s3
    /\ agent_run W (product_finder_agent key serp_key)
         (make_fix_prompt s1 (focus_area prefs) (improvement_goal prefs)) [] = Some s4
    /\ agent_calls (trace (generate_workspace_report W p) st) =
         [ (posture_analyzer_agent key,
            "Analyze the desk image and report ergonomic issues.", [mkImage path]);
           (risk_evaluator_agent key, s1, []);
           (fix_advisor_agent key,
            make_fix_prompt s1 (focus_area prefs) (improvement_goal prefs), []);
           (product_finder_agent key serp_key,
            make_fix_prompt s1 (focus_area prefs) (improvement_goal prefs), []) ]
    /\ report = make_final_report s1 s2 s3 s4.
Proof.
  exec_cases; intros; simplify_eq. do 8 eexists. repeat split; eauto.
Qed.

(** Every agent invoked carries the key stored in the session. *)
Lemma generate_calls_key W p st a prompt images :
  (a, prompt, images) ∈ agent_calls (trace (generate_workspace_report W p) st) ->
  session_state st !! "openai_api_key" = Some (model_api_key (model a)).
Proof. exec_cases; observe; intros Hin; elem_cases; done. Qed.

(** The agents a run of the page invokes are those of the pipeline run on
    the form. *)
Lemma main_agent_calls W ui st :
  agent_calls (trace (main W ui) st) = []
  \/ agent_calls (trace (main W ui) st) =
     agent_calls (trace (generate_workspace_report W (form_ref ui st)) (form_state ui st)).
Proof.
  destruct (main_trace W ui st) as (Htr & _).
  destruct (sidebar_trace_quiet ui st) as (Hcalls & _).
  destruct (form_state_facts ui st) as (Hp & _).
  rewrite Htr, agent_calls_app, Hcalls. simpl.
  destruct (button_clicked ui); [|left; apply shown_result_quiet].
  rewrite agent_calls_app.
  assert (Hquiet : agent_calls
            match result (on_submit W (form_ref ui st)) (form_state ui st) with
            | Ok _ => shown_result W (session_state (on_submit W (form_ref ui st)
                                                       (form_state ui st)).2)
            | Raise _ => []
            end = []) by (case_match; [apply shown_result_quiet | done]).
  rewrite Hquiet, app_nil_r.
  destruct (session_state (form_state ui st) !! "openai_api_key") as [key|] eqn:Hk.
  2: { left. destruct (on_submit_rejects W _ _ _ Hp (or_introl Hk)) as (msg & Hrun & _).
       erewrite events_of_trace; [|by rewrite Hrun]. done. }
  destruct (session_state (form_state ui st) !! "serp_api_key") as [serp_key|] eqn:Hs.
  2: { left.
       destruct (on_submit_rejects W _ _ _ Hp (or_intror (or_introl Hs))) as (msg & Hrun & _).
       erewrite events_of_trace; [|by rewrite Hrun]. done. }
  destruct (uploaded_image (form_prefs ui)) as [f|] eqn:Hf.
  2: { left.
       destruct (on_submit_rejects W _ _ _ Hp (or_intror (or_intror Hf))) as (msg & Hrun & _).
       erewrite events_of_trace; [|by rewrite Hrun]. done. }
  right. by rewrite (on_submit_trace W _ _ _ key serp_key f Hp Hk Hs Hf).
Qed.

(** X9. The sidebar keeps a key across runs: a key entered now is stored
    (as entered, replacing an earlier one), an empty field leaves the stored
    key as it is, no other attribute of the session changes or disappears,
    and the sidebar never fails.  What it shows is the success message of
    the model-provider key when that key was entered, then the success
    message of the search-provider key when that key was entered, and
    nothing else. *)
Theorem render_sidebar_stores_keys ui st :
  result (render_sidebar ui) st = Ok tt
  /\ session_state (render_sidebar ui st).2 !! "openai_api_key"
     = effective_key (openai_key_input ui) (session_state st !! "openai_api_key")
  /\ session_state (render_sidebar ui st).2 !! "serp_api_key"
     = effective_key (serp_key_input ui) (session_state st !! "serp_api_key")
  /\ (forall attr, attr <> "openai_api_key" -> attr <> "serp_api_key" ->
        session_state (render_sidebar ui st).2 !! attr = session_state st !! attr)
  /\ (forall attr, is_Some (session_state st !! attr) ->
        is_Some (session_state (render_sidebar ui st).2 !! attr))
  /\ trace (render_sidebar ui) st =
       ((if nonempty (openai_key_input ui)
         then [EvSidebarSuccess "✅ OpenAI API key updated!"] else []) ++
        (if nonempty (serp_key_input ui)
         then [EvSidebarSuccess "✅ Serp API key updated!"] else []))%list.
Proof.
  destruct (render_sidebar_spec ui st) as (Hrun & Htr & Ho & Hs & Hother).
  split; [unfold result; by rewrite Hrun|].
  split; [done|]. split; [done|]. split; [done|]. split; [|done].
  intros attr Hsome.
  destruct (decide (attr = "openai_api_key")) as [->|Hne1].
  { rewrite Ho. unfold effective_key. by destruct (nonempty (openai_key_input ui)). }
  destruct (decide (attr = "serp_api_key")) as [->|Hne2].
  { rewrite Hs. unfold effective_key. by destruct (nonempty (serp_key_input ui)). }
  by rewrite Hother.
Qed.

(** X10. A run of the page without a click on the button invokes no agent
    and shows no validation message.  Without a stored report or photo it
    shows only the sidebar's messages and returns.  With a report and a
    photo stored by an earlier run: if the photo can be decoded, the page
    ends with that photo, that report and the download button offering the
    same report; if the photo cannot be decoded, the run raises in
    [st.image] and shows neither the report nor the download button. *)
Theorem main_rerun_shows_stored_report W ui st :
  button_clicked ui = false ->
  agent_calls (trace (main W ui) st) = []
  /\ errors_shown (trace (main W ui) st) = []
  /\ (session_state st !! "workspace_report" = None
      \/ session_state st !! "uploaded_image" = None ->
      result (main W ui) st = Ok tt
      /\ trace (main W ui) st = trace (render_sidebar ui) st)
  /\ (forall report image,
        session_state st !! "workspace_report" = Some report ->
        session_state st !! "uploaded_image" = Some image ->
        (st_image W image = true ->
         download_data_ok report = true ->
         result (main W ui) st = Ok tt
         /\ trace (main W ui) st =
              (trace (render_sidebar ui) st ++
               [ EvImage image; EvMarkdown report;
                 EvDownloadButton "📥 Download Workspace Report" report
                   "workspace_optimization_report.md" "text/markdown" ])%list)
        /\ (st_image W image = false ->
            result (main W ui) st = Raise ImageDecodeError
            /\ trace (main W ui) st = trace (render_sidebar ui) st)).
Proof.
  intros Hb.
  destruct (main_trace W ui st) as (Htr & Hres).
  destruct (sidebar_trace_quiet ui st) as (Hcalls & Herrs).
  destruct (form_state_facts ui st) as (_ & Hsess & _).
  destruct (render_sidebar_spec ui st) as (_ & _ & _ & _ & Hother).
  rewrite Hb in Htr, Hres.
  assert (Hr : session_state (form_state ui st) !! "workspace_report"
               = session_state st !! "workspace_report") by (by rewrite Hsess, Hother).
  assert (Hi : session_state (form_state ui st) !! "uploaded_image"
               = session_state st !! "uploaded_image") by (by rewrite Hsess, Hother).
  rewrite Htr, Hres. unfold shown_result, display_error. rewrite Hr, Hi.
  split; [rewrite agent_calls_app, Hcalls; by repeat case_match|].
  split; [rewrite errors_shown_app, Herrs; by repeat case_match|].
  split.
  - intros [->| ->]; [|destruct (session_state st !! "workspace_report")];
      by rewrite app_nil_r.
  - intros report image -> ->. split.
    + by intros -> ->.
    + intros ->. by rewrite app_nil_r.
Qed.

Lemma main_rerun_shows_stored_report_witness :
  result (main (Stub.world "A" "B" "C" "D")
            (mkUserInput "" "" None PostureCorrection ReduceStrain false))
         (on_submit (Stub.world "A" "B" "C" "D") 0 Stub.ready).2 = Ok tt
  /\ result (main (Stub.world "A" "B" "C" "D")
               (mkUserInput "" "" None PostureCorrection ReduceStrain false))
            (on_submit (Stub.world "A" "B" "C" "D") 0
               (with_prefs 0 (mkPrefs (Some Stub.broken_photo) "Posture Correction"
                                "Reduce Strain") Stub.ready)).2
     = Raise ImageDecodeError.
Proof.
  split.
  - apply (main_rerun_shows_stored_report (Stub.world "A" "B" "C" "D")
             (mkUserInput "" "" None PostureCorrection ReduceStrain false)
             (on_submit (Stub.world "A" "B" "C" "D") 0 Stub.ready).2 eq_refl)
      with (report := SStr example_report) (image := SFile Stub.photo);
      vm_compute; reflexivity.
  - apply (main_rerun_shows_stored_report (Stub.world "A" "B" "C" "D")
             (mkUserInput "" "" None PostureCorrection ReduceStrain false)
             (on_submit (Stub.world "A" "B" "C" "D") 0
                (with_prefs 0 (mkPrefs (Some Stub.broken_photo) "Posture Correction"
                                 "Reduce Strain") Stub.ready)).2 eq_refl)
      with (report := SStr example_report) (image := SFile Stub.broken_photo);
      vm_compute; reflexivity.
Defined.

(** X11. A click on the button while a key is neither stored nor entered,
    or while no photo is uploaded, invokes no agent and writes no file: the
    page shows exactly one of the three validation messages, and a report
    stored by an earlier run stays stored.  The run then returns, unless a
    photo and a report stored earlier cannot be displayed: it raises only
    in the result part of the page, in [st.image] when the stored photo
    cannot be decoded. *)
Theorem main_rejects_incomplete_form W ui st :
  button_clicked ui = true ->
  effective_key (openai_key_input ui) (session_state st !! "openai_api_key") = None
  \/ effective_key (serp_key_input ui) (session_state st !! "serp_api_key") = None
  \/ file_upload ui = None ->
  agent_calls (trace (main W ui) st) = []
  /\ (exists msg,
        errors_shown (trace (main W ui) st) = [msg]
        /\ msg ∈ [msg_no_openai_key; msg_no_serp_key; msg_no_image])
  /\ files (main W ui st).2 = files st
  /\ session_state (main W ui st).2 !! "workspace_report"
     = session_state st !! "workspace_report"
  /\ (session_state st !! "workspace_report" = None
      \/ session_state st !! "uploaded_image" = None ->
      result (main W ui) st = Ok tt)
  /\ (forall report image,
        session_state st !! "workspace_report" = Some report ->
        session_state st !! "uploaded_image" = Some image ->
        st_image W image = false ->
        result (main W ui) st = Raise ImageDecodeError)
  /\ (forall e, result (main W ui) st = Raise e ->
        e = ImageDecodeError \/ e = InvalidDownloadData).
Proof.
  intros Hb Hmissing.
  destruct (main_trace W ui st) as (Htr & Hres).
  destruct (sidebar_trace_quiet ui st) as (Hcalls & Herrs).
  destruct (form_state_facts ui st) as (Hp & Hsess & Hfiles & _).
  destruct (render_sidebar_spec ui st) as (_ & _ & Ho & Hs & Hother).
  rewrite Hb in Htr, Hres.
  assert (Hmissing' :
    session_state (form_state ui st) !! "openai_api_key" = None
    \/ session_state (form_state ui st) !! "serp_api_key" = None
    \/ uploaded_image (form_prefs ui) = None)
    by (rewrite Hsess, Ho, Hs; exact Hmissing).
  destruct (on_submit_rejects W _ _ _ Hp Hmissing') as (msg & Hrun & Hmsg).
  assert (Htr3 : trace (on_submit W (form_ref ui st)) (form_state ui st) = [EvError msg])
    by (apply events_of_trace; by rewrite Hrun).
  assert (Hr : session_state (form_state ui st) !! "workspace_report"
               = session_state st !! "workspace_report") by (by rewrite Hsess, Hother).
  assert (Hi : session_state (form_state ui st) !! "uploaded_image"
               = session_state st !! "uploaded_image") by (by rewrite Hsess, Hother).
  assert (Hfinal : (main W ui st).2 =
            ((on_submit W (form_ref ui st) >> display_result W) (form_state ui st)).2)
    by (by rewrite main_steps, Hb).
  rewrite Hfinal. clear Hfinal.
  unfold result in Hres, Htr. unfold bind. rewrite Hrun in Hres, Htr |- *.
  rewrite display_result_spec. cbn [fst snd session_state files] in Hres, Htr |- *.
  rewrite Htr3 in Htr. unfold result. rewrite Hres, Htr.
  unfold display_error. rewrite Hr, Hi.
  split; [by rewrite !agent_calls_app, Hcalls, (proj1 (shown_result_quiet _ _))|].
  split; [exists msg; by rewrite !errors_shown_app, Herrs, (proj2 (shown_result_quiet _ _))|].
  split; [done|]. split; [done|]. split; [|split].
  - intros [->| ->]; [|destruct (session_state st !! "workspace_report")]; done.
  - by intros report image -> -> ->.
  - intros e. repeat case_match; simpl; intros; simplify_eq; eauto.
Qed.

Lemma main_rejects_incomplete_form_witness :
  agent_calls
    (trace (main (Stub.world "A" "B" "C" "D")
              (mkUserInput "sk" "" (Some Stub.photo) PostureCorrection ReduceStrain true))
       fresh_session) = [].
Proof.
  apply (main_rejects_incomplete_form (Stub.world "A" "B" "C" "D")
           (mkUserInput "sk" "" (Some Stub.photo) PostureCorrection ReduceStrain true)
           fresh_session).
  - reflexivity.
  - right. left. reflexivity.
Defined.

(** X12. A run of the page that returns after a click with both keys
    available and a photo uploaded has invoked the four agents, and the
    photo could be decoded.  The fix advisor got the issue text, an empty
    line, "Focus: " with the label of the focus area chosen and, on the
    next line, "Goal: " with the label of the goal chosen.  The page ends
    with the uploaded photo, the report assembled from the four answers,
    and the download button offering that same report, which is also what
    the session now stores. *)
Theorem main_shows_generated_report W ui st key serp_key f :
  button_clicked ui = true ->
  effective_key (openai_key_input ui) (session_state st !! "openai_api_key") = Some key ->
  effective_key (serp_key_input ui) (session_state st !! "serp_api_key") = Some serp_key ->
  file_upload ui = Some f ->
  result (main W ui) st = Ok tt ->
  st_image W (SFile f) = true
  /\ exists s1 s2 s3 s4 evs,
       outputs_of W Detect (trace (main W ui) st) = [s1]
       /\ outputs_of W Evaluate (trace (main W ui) st) = [s2]
       /\ outputs_of W Recommend (trace (main W ui) st) = [s3]
       /\ outputs_of W FindProducts (trace (main W ui) st) = [s4]
       /\ prompts_of Recommend (trace (main W ui) st)
          = [s1 +:+ nl +:+ nl +:+ "Focus: " +:+ focus_label (focus_choice ui)
               +:+ nl +:+ "Goal: " +:+ goal_label (goal_choice ui)]
       /\ trace (main W ui) st =
            (evs ++ [ EvImage (SFile f);
                      EvMarkdown (SStr (make_final_report s1 s2 s3 s4));
                      EvDownloadButton "📥 Download Workspace Report"
                        (SStr (make_final_report s1 s2 s3 s4))
                        "workspace_optimization_report.md" "text/markdown" ])%list
       /\ session_state (main W ui st).2 !! "workspace_report"
          = Some (SStr (make_final_report s1 s2 s3 s4)).
Proof.
  intros Hb Hkey Hserp Hfile Hok.
  destruct (main_trace W ui st) as (Htr & Hres).
  destruct (sidebar_trace_quiet ui st) as (Hcalls & _).
  destruct (form_state_facts ui st) as (Hp & Hsess & _).
  destruct (render_sidebar_spec ui st) as (_ & _ & Ho & Hs & _).
  rewrite Hb in Htr, Hres. rewrite Hres in Hok.
  assert (Hk2 : session_state (form_state ui st) !! "openai_api_key" = Some key)
    by (by rewrite Hsess, Ho).
  assert (Hs2 : session_state (form_state ui st) !! "serp_api_key" = Some serp_key)
    by (by rewrite Hsess, Hs).
  assert (Hf2 : uploaded_image (form_prefs ui) = Some f) by done.
  pose proof (on_submit_runs_pipeline W _ _ _ _ _ _ Hp Hk2 Hs2 Hf2) as Hrun.
  pose proof (on_submit_trace W _ _ _ _ _ _ Hp Hk2 Hs2 Hf2) as Htr3.
  pose proof (generate_returns_calls W (form_ref ui st) (form_state ui st)) as Hgen.
  rewrite Htr3 in Htr. unfold result in Hok, Htr, Hgen.
  assert (Hfinal : (main W ui st).2
            = ((on_submit W (form_ref ui st) >> display_result W) (form_state ui st)).2)
    by (by rewrite main_steps, Hb).
  rewrite Hfinal. clear Hfinal. unfold bind at 1.
  rewrite Hrun in Hok, Htr |- *. unfold bind, session_set in Hok, Htr |- *.
  destruct (generate_workspace_report W (form_ref ui st) (form_state ui st))
    as [[report|e] st'] eqn:Hg; [|discriminate].
  destruct (Hgen report eq_refl)
    as (prefs & key' & serp' & path & s1 & s2 & s3 & s4
        & Hp' & Hk' & Hs' & H1 & H2 & H3 & H4 & Hcs & ->).
  simplify_eq. simpl in Hok, Htr |- *. rewrite display_result_spec. simpl.
  unfold shown_result in Htr. unfold display_error in Hok. simpl in Hok, Htr.
  rewrite lookup_insert_ne, !lookup_insert_eq in Htr by done.
  rewrite lookup_insert_ne, !lookup_insert_eq in Hok by done.
  rewrite lookup_insert_ne, lookup_insert_eq by done.
  destruct (st_image W (SFile f)) eqn:Himg; [|discriminate].
  split; [done|]. simpl in Htr.
  exists s1, s2, s3, s4,
    (trace (render_sidebar ui) st ++
     trace (generate_workspace_report W (form_ref ui st)) (form_state ui st))%list.
  assert (Hall : agent_calls (trace (main W ui) st) =
            agent_calls (trace (generate_workspace_report W (form_ref ui st))
                           (form_state ui st))).
  { rewrite Htr, !agent_calls_app, Hcalls. simpl. by rewrite app_nil_r. }
  unfold outputs_of, prompts_of, calls_of. rewrite Hall, Hcs. simpl.
  simpl in H3, H4. rewrite H1, H2, H3, H4. simpl.
  repeat split; try done. by rewrite Htr, <- app_assoc.
Qed.

Lemma main_shows_generated_report_witness :
  exists s1 s2 s3 s4,
    session_state (main (Stub.world "A" "B" "C" "D") filled_form fresh_session).2
      !! "workspace_report" = Some (SStr (make_final_report s1 s2 s3 s4))
    /\ outputs_of (Stub.world "A" "B" "C" "D") Detect
         (trace (main (Stub.world "A" "B" "C" "D") filled_form) fresh_session) = [s1]
    /\ prompts_of Recommend
         (trace (main (Stub.world "A" "B" "C" "D") filled_form) fresh_session)
       = [s1 +:+ nl +:+ nl +:+ "Focus: Posture Correction" +:+ nl
            +:+ "Goal: Reduce Strain"].
Proof.
  destruct (main_shows_generated_report (Stub.world "A" "B" "C" "D") filled_form
              fresh_session (SStr "sk") (SStr "serp") Stub.photo)
    as (_ & s1 & s2 & s3 & s4 & evs & H1 & _ & _ & _ & H5 & _ & H7);
    [reflexivity | reflexivity | reflexivity | reflexivity | vm_compute; reflexivity |].
  exists s1, s2, s3, s4. split; [assumption|]. split; assumption.
Defined.

(** X13. The model-provider key an agent is built with is the key entered
    in the sidebar in this run or, when the field is empty, the key stored
    by an earlier run: whatever agent a run of the page invokes carries
    that key. *)
Theorem main_agents_use_effective_key W ui st a prompt images :
  (a, prompt, images) ∈ agent_calls (trace (main W ui) st) ->
  effective_key (openai_key_input ui) (session_state st !! "openai_api_key")
  = Some (model_api_key (model a)).
Proof.
  intros Hin.
  destruct (form_state_facts ui st) as (_ & Hsess & _).
  destruct (render_sidebar_spec ui st) as (_ & _ & Ho & _).
  destruct (main_agent_calls W ui st) as [Hnone|Hsame].
  - rewrite Hnone in Hin. by apply elem_of_nil in Hin.
  - rewrite Hsame in Hin. apply generate_calls_key in Hin.
    by rewrite <- Ho, <- Hsess.
Qed.

Lemma main_agents_use_effective_key_witness :
  effective_key "sk" (fresh_session.(session_state) !! "openai_api_key")
  = Some (SStr "sk").
Proof.
  apply (main_agents_use_effective_key (Stub.world "A" "B" "C" "D") filled_form
           fresh_session (risk_evaluator_agent (SStr "sk")) "A" []).
  vm_compute. right. left.
Defined.

(** X14. The fix prompt tells the choices of the form apart: for the same
    issue text, two prompts built from the labels of the select boxes are
    equal only when the focus areas and the improvement goals chosen are
    the same. *)
Theorem fix_prompt_determines_choices issue_section f1 g1 f2 g2 :
  make_fix_prompt issue_section (focus_label f1) (goal_label g1)
  = make_fix_prompt issue_section (focus_label f2) (goal_label g2) ->
  f1 = f2 /\ g1 = g2.
Proof.
  unfold make_fix_prompt. intros Heq.
  apply (inj (String.app issue_section)) in Heq.
  destruct f1, f2, g1, g2; first [done | discriminate Heq].
Qed.

Lemma fix_prompt_determines_choices_witness :
  DeskOrganization = DeskOrganization /\ BoostProductivity = BoostProductivity.
Proof.
  apply (fix_prompt_determines_choices "A" DeskOrganization BoostProductivity
           DeskOrganization BoostProductivity).
  reflexivity.
Defined.
